(** * Budget transparency pipeline: a shallow embedding of its front-end
    helpers, its Next.js API routes and of the analysis service it calls.

    The TypeScript code under [components/], [app/api/] and the report
    generator are translated from the source.  The Python analysis service
    (page locator, vision extractor, parsers, orchestrator) is not part of
    the sources; the definitions for it are modelled from the specification
    and say so in their doc comments. *)

From Stdlib Require Import List String Ascii ZArith QArith Bool Lia.
From Stdlib Require Import Permutation Sorted.
Import ListNotations.
Open Scope string_scope.

(** ** JavaScript values and string helpers *)

(** The dynamically typed values a metric can hold in [key_metrics]. *)
Inductive JsValue : Type :=
| JsNull
| JsUndefined
| JsNumber (q : Q)
| JsString (s : string)
| JsBool (b : bool)
| JsObject.

(** JavaScript truthiness. *)
Definition js_truthy (v : JsValue) : bool :=
  match v with
  | JsNull | JsUndefined => false
  | JsNumber q => negb (Qeq_bool q 0)
  | JsString s => negb (String.eqb s "")
  | JsBool b => b
  | JsObject => true
  end.

(** [hay.includes(needle)]. *)
Fixpoint str_includes (hay needle : string) : bool :=
  match hay with
  | EmptyString => String.prefix needle hay
  | String _ rest => String.prefix needle hay || str_includes rest needle
  end.

Section Formatting.

(** [String(n)] and [n.toLocaleString()] on numbers. *)
Variable num_to_string : Q -> string.
Variable num_to_locale : Q -> string.

(** JavaScript's [String(value)] (also used by template literals). *)
Definition js_to_string (v : JsValue) : string :=
  match v with
  | JsNull => "null"
  | JsUndefined => "undefined"
  | JsNumber q => num_to_string q
  | JsString s => s
  | JsBool true => "true"
  | JsBool false => "false"
  | JsObject => "[object Object]"
  end.

(** [value === 0]: strict equality with the number zero. *)
Definition js_strict_eq_zero (v : JsValue) : bool :=
  match v with
  | JsNumber q => Qeq_bool q 0
  | _ => false
  end.

(** [formatValue] of [components/analysis-module.tsx] (lines 69-74); the
    report generator [generateIntegrityReport] defines the same helper with
    the same body (lines 10-15), so both outputs are modelled by it.
<<
  if (value === null || value === undefined || value === 0) return "Not Found"
  if (key.includes("pct") || key.includes("rate") || key.includes("performance")) return `${value}%`
  if (typeof value === "number" && value > 1000) return `Ksh ${value.toLocaleString()}`
  return String(value)
>> *)
Definition formatValue (key : string) (value : JsValue) : string :=
  if (match value with JsNull | JsUndefined => true | _ => false end)
     || js_strict_eq_zero value
  then "Not Found"
  else if str_includes key "pct" || str_includes key "rate"
          || str_includes key "performance"
  then js_to_string value ++ "%"
  else match value with
       | JsNumber q => if negb (Qle_bool q 1000) then "Ksh " ++ num_to_locale q
                       else js_to_string value
       | _ => js_to_string value
       end.

End Formatting.

(** ** Route responses *)

(** Body of a [NextResponse.json(...)]: an error object or a success
    object carrying data. *)
Inductive JsonBody : Type :=
| BodyError (msg : string)
| BodySuccess (data : JsValue).

Record Response : Type := mkResponse {
  resp_status : Z;
  resp_body : JsonBody
}.

(** [err.message || "Server error"]. *)
Definition message_or (msg dflt : string) : string :=
  match msg with EmptyString => dflt | _ => msg end.

(** ** [app/api/FetchCountyData/route.ts] *)
Module FetchCountyData.

(** [searchParams.get(name)]: the first value bound to [name], [null]
    when there is none. *)
Fixpoint search_get (params : list (string * string)) (name : string)
  : option string :=
  match params with
  | [] => None
  | (k, v) :: rest => if String.eqb k name then Some v else search_get rest name
  end.

(** JavaScript truthiness of a [string | null]. *)
Definition truthy (o : option string) : bool :=
  match o with
  | None => false
  | Some EmptyString => false
  | Some _ => true
  end.

(** Outcome of [res.json()]. *)
Inductive JsonParse : Type :=
| JsonOk (v : JsValue)
| JsonThrows (msg : string).

(** Outcome of [await fetch(apiUrl)]. *)
Inductive FetchReply : Type :=
| FetchThrows (msg : string)
| FetchResp (ok : bool) (status : Z) (json : JsonParse).

Definition api_url (county year category : string) : string :=
  "https://opencounty.org/opencounty/api/?county=" ++ county
  ++ "&catgroup=api_budget&category=" ++ category ++ "&year=" ++ year.

(** [GET]: the response, together with the list of URLs handed to
    [fetch] (the requests issued to the OpenCounty API). *)
Definition GET (fetch : string -> FetchReply) (query : list (string * string))
  : Response * list string :=
  let county := search_get query "county" in
  let year := search_get query "year" in
  let category := search_get query "category" in
  if negb (truthy county) || negb (truthy year) || negb (truthy category) then
    (mkResponse 400 (BodyError "Missing parameters"), [])
  else
    let url := api_url (match county with Some c => c | None => "" end)
                       (match year with Some y => y | None => "" end)
                       (match category with Some c => c | None => "" end) in
    match fetch url with
    | FetchThrows msg =>
        (mkResponse 500 (BodyError (message_or msg "Server error")), [url])
    | FetchResp ok status json =>
        if negb ok then
          (mkResponse status (BodyError "Failed to fetch from OpenCounty API"), [url])
        else match json with
             | JsonOk data => (mkResponse 200 (BodySuccess data), [url])
             | JsonThrows msg =>
                 (mkResponse 500 (BodyError (message_or msg "Server error")), [url])
             end
    end.

End FetchCountyData.

(** ** [app/api/analyze/gemini/route.ts] over the tables of
    [database/schema.sql] *)
Module GeminiAnalyze.

Record Upload : Type := mkUpload {
  up_id : Z;
  up_filenames : list string;
  up_status : string
}.

(** A row of [analysis_results]; [ar_upload_id] is nullable. *)
Record AnalysisRow : Type := mkRow {
  ar_id : Z;
  ar_upload_id : option Z;
  ar_county : string;
  ar_year : string;
  ar_revenue : JsValue;
  ar_summary : string
}.

Record DB : Type := mkDB {
  uploads : list Upload;
  analysis_results : list AnalysisRow;
  next_id : Z  (** the [SERIAL] sequence of [analysis_results.id] *)
}.

(** The JSON request body [{ pdfId, county, year }]. *)
Record Body : Type := mkBody { pdfId : string; county : string; year : string }.

(** Reply of the Python service at [/analyze/gemini]. *)
Inductive PyReply : Type :=
| PyNotOk (status : Z) (detail : option string)
| PyOk (key_metrics : JsValue) (summary_text : option string) (result : JsValue).

(** A state monad over the database, for the queries of one client. *)
Definition St (A : Type) := DB -> A * DB.
Definition ret {A} (a : A) : St A := fun db => (a, db).
Definition bind {A B} (m : St A) (f : A -> St B) : St B :=
  fun db => let (a, db') := m db in f a db'.
Notation "x <- m ;; k" := (bind m (fun x => k))
  (at level 61, m at next level, right associativity).

(** [SELECT id FROM uploads WHERE filenames @> [pdfId] LIMIT 1]. *)
Definition select_upload (pdf : string) : St (option Z) := fun db =>
  (option_map up_id
     (find (fun u => existsb (String.eqb pdf) (up_filenames u)) (uploads db)), db).

(** SQL [=] on a nullable integer: comparing with [NULL] is never true. *)
Definition sql_eq (a b : option Z) : bool :=
  match a, b with
  | Some x, Some y => Z.eqb x y
  | _, _ => false
  end.

(** [SELECT id FROM analysis_results WHERE upload_id = $1 AND county = $2 LIMIT 1]. *)
Definition select_analysis (uid : option Z) (c : string) : St (option Z) := fun db =>
  (option_map ar_id
     (find (fun r => sql_eq (ar_upload_id r) uid && String.eqb (ar_county r) c)
           (analysis_results db)), db).

(** [UPDATE analysis_results SET revenue = .., summary_text = .., year = .. WHERE id = $7]. *)
Definition update_analysis (rid : Z) (rev : JsValue) (summ yr : string) : St unit :=
  fun db =>
  (tt, mkDB (uploads db)
            (map (fun r => if Z.eqb (ar_id r) rid
                           then mkRow (ar_id r) (ar_upload_id r) (ar_county r) yr rev summ
                           else r) (analysis_results db))
            (next_id db)).

(** [INSERT INTO analysis_results (upload_id, county, year, ..) VALUES (..)]. *)
Definition insert_analysis (uid : option Z) (c yr : string) (rev : JsValue)
  (summ : string) : St unit := fun db =>
  (tt, mkDB (uploads db)
            (analysis_results db ++ [mkRow (next_id db) uid c yr rev summ])
            (next_id db + 1)).

(** [UPDATE uploads SET upload_status = 'completed' WHERE id = $1]. *)
Definition complete_upload (uid : Z) : St unit := fun db =>
  (tt, mkDB (map (fun u => if Z.eqb (up_id u) uid
                           then mkUpload (up_id u) (up_filenames u) "completed" else u)
                 (uploads db))
            (analysis_results db) (next_id db)).

(** [POST], with the Python service as [python]. *)
Definition POST (python : Body -> PyReply) (b : Body) : St Response :=
  match python b with
  | PyNotOk status detail =>
      ret (mkResponse status
             (BodyError (match detail with Some d => d | None => "Python service error" end)))
  | PyOk metrics summary result =>
      let key_metrics := if js_truthy metrics then metrics else JsObject in
      let summary_text := match summary with
                          | Some s => message_or s "No summary provided."
                          | None => "No summary provided." end in
      upload_id <- select_upload (pdfId b) ;;
      existing <- select_analysis upload_id (county b) ;;
      _ <- match existing with
           | Some rid => update_analysis rid key_metrics summary_text (year b)
           | None => insert_analysis upload_id (county b) (year b) key_metrics summary_text
           end ;;
      _ <- match upload_id with
           | Some uid => complete_upload uid
           | None => ret tt
           end ;;
      ret (mkResponse 200 (BodySuccess result))
  end.

(** Number of [analysis_results] rows for an [(upload_id, county)] pair
    (the pair compared as values, [NULL] included). *)
Definition rows_for (uid : option Z) (c : string) (db : DB) : nat :=
  List.length (filter (fun r => match ar_upload_id r, uid with
                           | Some x, Some y => Z.eqb x y
                           | None, None => true
                           | _, _ => false end && String.eqb (ar_county r) c)
                 (analysis_results db)).

End GeminiAnalyze.

(** ** The analysis service (modelled from the specification)

    The Python service ([app/python_service/*.py]) is not among the
    sources; the definitions below follow the specification's sections
    4.2 and 4.4-4.8. *)

(** ASCII lower-casing, for case-insensitive matching. *)
Definition lower_ascii (c : ascii) : ascii :=
  let n := nat_of_ascii c in
  if (65 <=? n)%nat && (n <=? 90)%nat then ascii_of_nat (n + 32) else c.

Fixpoint lower (s : string) : string :=
  match s with
  | EmptyString => EmptyString
  | String c rest => String (lower_ascii c) (lower rest)
  end.

Module Locator.
Local Open Scope nat_scope.

(** Modelled from the spec: the LayoutIndex (section 4.1), an association
    list from normalised region name to the start page read from the
    table of contents. *)
Definition LayoutIndex := list (string * nat).

(** Modelled from the spec: region names are compared case-insensitively. *)
Definition normalize (s : string) : string := lower s.

Definition toc_lookup (idx : LayoutIndex) (region : string) : option nat :=
  option_map snd (find (fun e => String.eqb (normalize (fst e)) (normalize region)) idx).

(** Modelled from the spec: the formula step of [locate] (section 4.2,
    step 1; [SMART_PAGE_LOCALIZATION_FIX.md], "CGBIRR Formula"):
    the candidate set [{s, s+1, ..., s+k}]. *)
Definition formula_pages (s k : nat) : list nat := seq s (S k).

Definition formula_lookup (idx : LayoutIndex) (region : string) (k : nat)
  : option (list nat) :=
  option_map (fun s => formula_pages s k) (toc_lookup idx region).

(** Modelled from the spec: the validation predicate, the section header
    "... Government of {region}" found case-insensitively on a page. *)
Definition header_ok (page_text : nat -> string) (region : string) (p : nat) : bool :=
  str_includes (lower (page_text p)) (lower ("Government of " ++ region)).

(** Modelled from the spec: candidate starts of the validation step, the
    TOC start first, then the window widened symmetrically one page at a
    time up to [step] pages on each side ([s], [s-1], [s+1], ...). *)
Fixpoint widen (s : nat) (step : nat) : list nat :=
  match step with
  | O => [s]
  | S j => widen s j ++ [s - S j; s + S j]
  end.

(** Outcome of the TOC path of [locate] (steps 1-2): a located range, or a
    hand-off to the fallbacks of steps 3-5. *)
Inductive TocOutcome : Type :=
| Located (pages : list nat)
| NeedFallback.

(** Modelled from the spec: steps 1-2 of [locate], with the window step of
    2 pages. *)
Definition locate_toc (idx : LayoutIndex) (page_text : nat -> string)
  (k : nat) (region : string) : TocOutcome :=
  match toc_lookup idx region with
  | None => NeedFallback
  | Some s =>
      match find (header_ok page_text region) (widen s 2) with
      | Some s' => Located (formula_pages s' k)
      | None => NeedFallback
      end
  end.

End Locator.

Module Pipeline.
Local Open Scope nat_scope.

(** Modelled from the spec: the fields of a FinancialRecord (section 3). *)
Inductive Field : Type :=
| RevenueTarget | RevenueActual | RevenuePerformance | EquitableShare
| TotalExpenditure | RecurrentExpenditure | DevelopmentExpenditure
| DevAbsorption | OverallAbsorption
| PendingBills | UnderOneYear | OneToTwoYears | TwoToThreeYears | OverThreeYears
| HealthApproved | HealthPaid | HealthPaymentRate.

Definition all_fields : list Field :=
  [RevenueTarget; RevenueActual; RevenuePerformance; EquitableShare;
   TotalExpenditure; RecurrentExpenditure; DevelopmentExpenditure;
   DevAbsorption; OverallAbsorption;
   PendingBills; UnderOneYear; OneToTwoYears; TwoToThreeYears; OverThreeYears;
   HealthApproved; HealthPaid; HealthPaymentRate].

(** Modelled from the spec: a FinancialRecord; [None] is the explicit
    "not found" marker. *)
Definition FinancialRecord := Field -> option Q.

Definition empty_record : FinancialRecord := fun _ => None.

Definition record_empty (r : FinancialRecord) : bool :=
  forallb (fun f => match r f with None => true | Some _ => false end) all_fields.

(** Modelled from the spec: an ExtractionResult (section 3). *)
Record ExtractionResult : Type := mkResult {
  er_page : nat;
  er_markdown : string;
  er_confidence : Q
}.

(** *** Vision extractor (section 4.5) *)

(** Modelled from the spec: a reply of the external vision service. *)
Inductive ServiceReply : Type :=
| SvcOk (markdown : string) (confidence : Q)
| SvcWarmingUp
| SvcError (msg : string).

(** Observable effects of one extraction. *)
Inductive Effect : Type :=
| CallService (attempt : nat)
| Sleep (seconds : nat).

(** Modelled from the spec: the bounded-retry policy object of section 9. *)
Record RetryPolicy : Type := mkPolicy { max_retries : nat; backoff_s : nat }.

(** Modelled from the spec: retry once after a fixed backoff of 20s. *)
Definition default_policy : RetryPolicy := mkPolicy 1 20.

Section Extractor.

Variable Image : Type.
(** [svc img n]: the service's reply to the [n]-th call for [img]. *)
Variable svc : Image -> nat -> ServiceReply.

(** Modelled from the spec: a page that ultimately fails extraction. *)
Definition failed_result (p : nat) : ExtractionResult := mkResult p "" 0%Q.

Fixpoint attempts (pol : RetryPolicy) (img : Image) (p : nat)
  (retries : nat) (n : nat) : ExtractionResult * list Effect :=
  match svc img n with
  | SvcOk md c => (mkResult p md c, [CallService n])
  | SvcWarmingUp =>
      match retries with
      | O => (failed_result p, [CallService n])
      | S r =>
          let (res, tr) := attempts pol img p r (S n) in
          (res, CallService n :: Sleep (backoff_s pol) :: tr)
      end
  | SvcError _ => (failed_result p, [CallService n])
  end.

(** Modelled from the spec: [extract(image) -> ExtractionResult], with the
    effects it performs. *)
Definition extract (img : Image) (p : nat) : ExtractionResult * list Effect :=
  attempts default_policy img p (max_retries default_policy) 0.

(** Modelled from the spec: the extraction stage, one call per rendered
    page; a failing page does not stop the others. *)
Definition extract_all (images : list (nat * Image)) : list ExtractionResult :=
  map (fun pi => fst (extract (snd pi) (fst pi))) images.

End Extractor.

(** *** Fallback parser (section 4.6) *)

Definition is_digit (c : ascii) : bool :=
  let n := nat_of_ascii c in (48 <=? n) && (n <=? 57).

Fixpoint read_digits (s : string) (acc : Z) : Z :=
  match s with
  | EmptyString => acc
  | String c rest =>
      if is_digit c then read_digits rest (acc * 10 + Z.of_nat (nat_of_ascii c - 48))%Z
      else if Ascii.eqb c "," then read_digits rest acc
      else acc
  end.

(** The first number on a line (thousands separators skipped). *)
Fixpoint number_in (s : string) : option Z :=
  match s with
  | EmptyString => None
  | String c rest => if is_digit c then Some (read_digits s 0%Z) else number_in rest
  end.

Definition newline : ascii := ascii_of_nat 10.

(** Split a markdown text into lines. *)
Fixpoint split_lines_acc (s : string) (cur : string) : list string :=
  match s with
  | EmptyString => [cur]
  | String c rest =>
      if Ascii.eqb c newline then cur :: split_lines_acc rest EmptyString
      else split_lines_acc rest (cur ++ String c EmptyString)
  end.

Definition split_lines (s : string) : list string := split_lines_acc s EmptyString.

Fixpoint first_some {A} (l : list (option A)) : option A :=
  match l with
  | [] => None
  | Some a :: _ => Some a
  | None :: rest => first_some rest
  end.

(** Modelled from the spec: the rule-based parser, matching each field's
    label synonyms ([labels f]) case-insensitively line by line and taking
    the first number of the first matching line. *)
Definition fallback_parse (labels : Field -> list string) (md : string)
  : FinancialRecord :=
  fun f =>
    option_map inject_Z
      (first_some
         (map (fun line =>
                 if existsb (fun lab => str_includes (lower line) (lower lab)) (labels f)
                 then number_in line else None)
              (split_lines md))).

(** Modelled from the spec: the tagged result of the learned parser. *)
Inductive PrimaryOutcome : Type :=
| PrimaryFailed
| PrimaryRecord (r : FinancialRecord).

Inductive ParserUsed : Type := UsedPrimary | UsedFallback.

(** Modelled from the spec: the parse stage; the fallback runs when the
    learned parser fails or returns an all-"not found" record. *)
Definition parse_stage (labels : Field -> list string)
  (primary : string -> PrimaryOutcome) (md : string)
  : FinancialRecord * ParserUsed :=
  match primary md with
  | PrimaryRecord r =>
      if record_empty r then (fallback_parse labels md, UsedFallback)
      else (r, UsedPrimary)
  | PrimaryFailed => (fallback_parse labels md, UsedFallback)
  end.

(** *** Orchestrator (sections 4.4 and 4.8) *)

Fixpoint insert_nat (x : nat) (l : list nat) : list nat :=
  match l with
  | [] => [x]
  | y :: t => if x <=? y then x :: y :: t else y :: insert_nat x t
  end.

Fixpoint sort_nat (l : list nat) : list nat :=
  match l with
  | [] => []
  | x :: t => insert_nat x (sort_nat t)
  end.

(** Modelled from the spec: ascending page order over the union of the
    region range and the context range, deduplicated. *)
Definition sorted_union (region_range context_range : list nat) : list nat :=
  sort_nat (nodup Nat.eq_dec (region_range ++ context_range)).

Fixpoint insert_result (x : ExtractionResult) (l : list ExtractionResult)
  : list ExtractionResult :=
  match l with
  | [] => [x]
  | y :: t => if er_page x <=? er_page y then x :: y :: t else y :: insert_result x t
  end.

(** Modelled from the spec: the re-sort by page number of the extraction
    results. *)
Fixpoint sort_by_page (l : list ExtractionResult) : list ExtractionResult :=
  match l with
  | [] => []
  | x :: t => insert_result x (sort_by_page t)
  end.

(** Modelled from the spec: the markdown handed to the parser, the pages'
    markdown joined by blank lines. *)
Definition concat_markdown (rs : list ExtractionResult) : string :=
  String.concat (String newline (String newline EmptyString)) (map er_markdown rs).

(** Modelled from the spec: the states of a run. *)
Inductive RunState : Type :=
| LOCATING | RENDERING | EXTRACTING | PARSING | ANALYZING | DONE | FAILED.

Section Orchestrator.

Variable Image : Type.
Variable Analysis : Type.
(** The page locator and the summary table locator: the region range and
    the context range, or [None] for [RegionNotLocatedError]. *)
Variable locate_ranges : string -> option (list nat * list nat).
(** The page renderer on one page; [None] when the page fails to render. *)
Variable render : nat -> option Image.
Variable svc : Image -> nat -> ServiceReply.
(** The order in which the concurrent extraction calls complete. *)
Variable completion_order : list ExtractionResult -> list ExtractionResult.
Variable labels : Field -> list string.
Variable primary : string -> PrimaryOutcome.
(** The analysis engine, total (it never hard-fails, section 4.7). *)
Variable analyze : FinancialRecord -> Analysis.

Record RunResult : Type := mkRun {
  rr_region : list nat;
  rr_context : list nat;
  rr_pages : list nat;
  rr_results : list ExtractionResult;
  rr_record : FinancialRecord;
  rr_parser : ParserUsed;
  rr_analysis : Analysis
}.

(** Rendering: the pages that rendered, in order, with their image. *)
Fixpoint render_pages (pages : list nat) : list (nat * Image) :=
  match pages with
  | [] => []
  | p :: rest =>
      match render p with
      | Some img => (p, img) :: render_pages rest
      | None => render_pages rest
      end
  end.

(** Modelled from the spec: one pipeline run, as the sequence of states it
    goes through and its result. *)
Definition run (region : string) : list RunState * option RunResult :=
  match locate_ranges region with
  | None => ([LOCATING; FAILED], None)
  | Some (rr, cr) =>
      let pages := sorted_union rr cr in
      match render_pages pages with
      | [] => ([LOCATING; RENDERING; FAILED], None)
      | images =>
          let results := sort_by_page (completion_order (extract_all Image svc images)) in
          let (record, used) := parse_stage labels primary (concat_markdown results) in
          ([LOCATING; RENDERING; EXTRACTING; PARSING; ANALYZING; DONE],
           Some (mkRun rr cr pages results record used (analyze record)))
      end
  end.

End Orchestrator.

Arguments rr_region {Analysis} _.
Arguments rr_context {Analysis} _.
Arguments rr_pages {Analysis} _.
Arguments rr_results {Analysis} _.
Arguments rr_record {Analysis} _.
Arguments rr_parser {Analysis} _.
Arguments rr_analysis {Analysis} _.

(** The transitions taken along a sequence of states. *)
Fixpoint transitions (tr : list RunState) : list (RunState * RunState) :=
  match tr with
  | a :: (b :: _) as rest => (a, b) :: transitions rest
  | _ => []
  end.

End Pipeline.

(** ** JSON values of the front end

    Values received from the API, as nested JSON.  Objects are association
    lists; as with [JSON.parse], a later binding of a key overrides an
    earlier one.  The enumeration order JavaScript gives integer-like keys
    is not modelled; the properties below only look keys up. *)
Module Json.

Inductive t : Type :=
| JNull
| JUndef
| JNum (q : Q)
| JStr (s : string)
| JBool (b : bool)
| JArr (l : list t)
| JObj (fields : list (string * t)).

(** The own property [k] of a list of bindings (the last binding wins). *)
Fixpoint lookup (k : string) (fs : list (string * t)) : option t :=
  match fs with
  | [] => None
  | (k', v) :: rest =>
      match lookup k rest with
      | Some w => Some w
      | None => if String.eqb k' k then Some v else None
      end
  end.

(** [o.k] and [o?.k]: the property, [undefined] when [o] has none (a
    primitive or a nullish [o] under optional chaining). *)
Definition get (o : t) (k : string) : t :=
  match o with
  | JObj fs => match lookup k fs with Some v => v | None => JUndef end
  | _ => JUndef
  end.

Definition truthy (v : t) : bool :=
  match v with
  | JNull | JUndef => false
  | JNum q => negb (Qeq_bool q 0)
  | JStr s => negb (String.eqb s "")
  | JBool b => b
  | JArr _ | JObj _ => true
  end.

(** [a || b]. *)
Definition or (a b : t) : t := if truthy a then a else b.

(** Assigning property [k] of an object literal under construction: the
    value is replaced where the key exists, the key appended otherwise. *)
Definition set (fs : list (string * t)) (k : string) (v : t) : list (string * t) :=
  if existsb (fun kv => String.eqb (fst kv) k) fs
  then map (fun kv => if String.eqb (fst kv) k then (k, v) else kv) fs
  else fs ++ [(k, v)].

(** Decimal rendering of an array index or string position. *)
Fixpoint digits_rev (fuel n : nat) : string :=
  match fuel with
  | O => EmptyString
  | S f =>
      let d := String (ascii_of_nat (48 + Nat.modulo n 10)) EmptyString in
      if Nat.ltb n 10 then d else digits_rev f (Nat.div n 10) ++ d
  end.

Definition nat_to_string (n : nat) : string := digits_rev (S n) n.

Fixpoint string_chars (s : string) : list string :=
  match s with
  | EmptyString => []
  | String c rest => String c EmptyString :: string_chars rest
  end.

(** The own enumerable properties [...x] copies, in order. *)
Definition own_entries (x : t) : list (string * t) :=
  match x with
  | JObj fs => fs
  | JArr l => combine (map nat_to_string (seq 0 (List.length l))) l
  | JStr s => (* one entry per character of the string *)
              combine (map nat_to_string (seq 0 (String.length s)))
                      (map JStr (string_chars s))
  | _ => []
  end.

(** [{ ...acc, ...x }]. *)
Definition spread (acc : list (string * t)) (x : t) : list (string * t) :=
  fold_left (fun a kv => set a (fst kv) (snd kv)) (own_entries x) acc.

End Json.

(** ** [handleGPUResults] of [components/analysis-module.tsx] (lines 77-107)

    The result object it passes to [setResult], or [None] when it returns
    early on a falsy [data]; the refresh of [/api/documents] it starts
    afterwards does not touch the result. *)
Module GPUResults.
Import Json.

Definition or_empty (v : t) : t := or v (JObj []).

Definition handleGPUResults (data : t) (county : string) : option t :=
  if negb (truthy data) then None else
  let interpreted := or (get data "interpreted_data") data in
  let summary := or (or (or (get interpreted "summary_text") (get data "summary_text"))
                        (get interpreted "executive_summary"))
                    (JStr "No summary generated.") in
  let extraction := get data "extraction" in
  let keyMetrics :=
    or (get interpreted "key_metrics")
       (JObj (spread (spread (spread (spread (spread []
                (or_empty (get extraction "revenue")))
                (or_empty (get extraction "expenditure")))
                (or_empty (get extraction "debt")))
                (or_empty (get extraction "health_fif")))
                (or_empty (get data "key_metrics")))) in
  let risk := get (get data "analysis") "risk_assessment" in
  let intel :=
    or (or (get interpreted "intelligence") (get data "intelligence"))
       (JObj (set (set (spread [] (or_empty risk))
                       "transparency_risk_score" (or (get risk "score") (JNum 0)))
                  "flags" (or (get risk "flags") (JArr [])))) in
  let fs := spread [] interpreted in
  let fs := set fs "county" (or (get interpreted "county") (JStr county)) in
  let fs := set fs "method" (or (or (get data "method") (get interpreted "method"))
                               (JStr "Analysis Engine")) in
  let fs := set fs "summary_text" summary in
  let fs := set fs "key_metrics" keyMetrics in
  let fs := set fs "intelligence" intel in
  let fs := set fs "raw_verified_data"
                (or (get data "raw_verified_data") (get interpreted "raw_verified_data")) in
  let fs := set fs "processing_time_sec"
                (or (get data "processing_time_sec") (get interpreted "processing_time_sec")) in
  Some (JObj fs).

(** The first of several objects that has [k] as an own property. *)
Fixpoint first_lookup (k : string) (srcs : list t) : option t :=
  match srcs with
  | [] => None
  | x :: rest => match lookup k (own_entries x) with
                 | Some v => Some v
                 | None => first_lookup k rest
                 end
  end.

End GPUResults.

(** ** [generateIntegrityReport] of [unnamed/part_009] (lines 3-117)

    The jsPDF document is the number of pages, the current page and the
    drawing operations in the order they are issued; font, size and colour
    settings do not change positions and are not recorded. *)
Module Report.
Import Json.

Inductive Op : Type :=
| OpRect (page : nat)
| OpText (page : nat) (s : string) (x : Q) (y : Z)
| OpLine (page : nat) (x1 : Q) (y1 : Z) (x2 : Q) (y2 : Z).

Record Doc : Type := mkDoc { pages : nat; cur : nat; ops : list Op }.

Definition new_doc : Doc := mkDoc 1 1 [].

Definition emit (d : Doc) (op : Op) : Doc :=
  mkDoc (pages d) (cur d) (ops d ++ [op]).

Definition text (d : Doc) (s : string) (x : Q) (y : Z) : Doc :=
  emit d (OpText (cur d) s x y).

(** [doc.addPage()]: a new last page, which becomes the current one. *)
Definition addPage (d : Doc) : Doc :=
  mkDoc (S (pages d)) (S (pages d)) (ops d).

Definition setPage (d : Doc) (i : nat) : Doc := mkDoc (pages d) i (ops d).

Inductive Outcome : Type :=
| NoReport                              (* [if (!result) return] *)
| Throws                                (* a TypeError before [doc.save] *)
| Saved (d : Doc) (filename : string).

Definition margin : Q := 20.

(** [key.replaceAll("_", " ")]. *)
Fixpoint underscores_to_spaces (s : string) : string :=
  match s with
  | EmptyString => EmptyString
  | String c rest =>
      String (if Ascii.eqb c "_"%char then " "%char else c)
             (underscores_to_spaces rest)
  end.

(** [.replace(/[#*]/g, "")]. *)
Fixpoint strip_marks (s : string) : string :=
  match s with
  | EmptyString => EmptyString
  | String c rest =>
      if Ascii.eqb c "#"%char || Ascii.eqb c "*"%char
      then strip_marks rest else String c (strip_marks rest)
  end.

(** [Object.entries] of an object: each key once, at its first position,
    with the value [JSON.parse] keeps (the last one). *)
Fixpoint entries_from (all : list (string * t)) (seen : list string)
    (fs : list (string * t)) : list (string * t) :=
  match fs with
  | [] => []
  | (k, _) :: rest =>
      if existsb (String.eqb k) seen then entries_from all seen rest
      else (k, get (JObj all) k) :: entries_from all (k :: seen) rest
  end.

Definition object_entries (x : t) : list (string * t) :=
  match x with
  | JObj fs => entries_from fs [] fs
  | _ => own_entries x
  end.

Section Generate.

(** [String(n)], [n.toLocaleString()], [String.prototype.toUpperCase],
    [doc.internal.pageSize.getWidth()], [doc.splitTextToSize] and the date
    [new Date().toLocaleDateString()] prints. *)
Variable num_to_string : Q -> string.
Variable num_to_locale : Q -> string.
Variable to_upper : string -> string.
Variable pageWidth : Q.
Variable splitTextToSize : string -> Q -> list string.
Variable date_string : string.

(** [String(v)] and [`${v}`]. *)
Fixpoint to_str (v : t) : string :=
  match v with
  | JNull => "null"
  | JUndef => "undefined"
  | JNum q => num_to_string q
  | JStr s => s
  | JBool true => "true"
  | JBool false => "false"
  | JObj _ => "[object Object]"
  | JArr l =>
      String.concat ","
        ((fix go (l : list t) : list string :=
            match l with
            | [] => []
            | (JNull | JUndef) :: r => "" :: go r
            | x :: r => to_str x :: go r
            end) l)
  end.

(** [formatValue] (lines 10-15) on a JSON value. *)
Definition formatValue (key : string) (value : t) : string :=
  if (match value with JNull | JUndef => true | JNum q => Qeq_bool q 0 | _ => false end)
  then "Not Found"
  else if str_includes key "pct" || str_includes key "rate"
          || str_includes key "performance"
  then to_str value ++ "%"
  else match value with
       | JNum q => if negb (Qle_bool q 1000) then "Ksh " ++ num_to_locale q
                   else to_str value
       | _ => to_str value
       end.

(** [result.method?.toUpperCase() || "AI DIAGNOSTIC"]; [None] when
    [toUpperCase] is not a function of the value. *)
Definition method_label (m : t) : option string :=
  match m with
  | JNull | JUndef => Some "AI DIAGNOSTIC"
  | JStr s => let u := to_upper s in
              Some (if String.eqb u "" then "AI DIAGNOSTIC" else u)
  | _ => None
  end.

(** The body of [metricEntries.forEach] (lines 63-83), from entry [index]
    of [n]. *)
Fixpoint draw_metrics (es : list (string * t)) (index n : nat) (yPos : Z) (d : Doc)
    : Z * Doc :=
  match es with
  | [] => (yPos, d)
  | (key, value) :: rest =>
      let col := Nat.modulo index 2 in
      let x := margin + (inject_Z (Z.of_nat col) * (pageWidth - 2 * margin) / 2) in
      let label := to_upper (underscores_to_spaces key) in
      let d := text d label x yPos in
      let d := text d (formatValue key value) x (yPos + 5)%Z in
      let yPos := if Nat.eqb col 1 || Nat.eqb index (n - 1) then (yPos + 15)%Z else yPos in
      let '(yPos, d) := if Z.ltb 270 yPos then (20%Z, addPage d) else (yPos, d) in
      draw_metrics rest (S index) n yPos d
  end.

(** [textLines.forEach] (lines 98-105). *)
Fixpoint draw_lines (lines : list string) (yPos : Z) (d : Doc) : Z * Doc :=
  match lines with
  | [] => (yPos, d)
  | line :: rest =>
      let '(yPos, d) := if Z.ltb 280 yPos then (20%Z, addPage d) else (yPos, d) in
      draw_lines rest (yPos + 6)%Z (text d line margin yPos)
  end.

Definition footer (i total : nat) : string :=
  "BudgetAI Integrity Diagnostics | Page " ++ nat_to_string i ++ " of "
  ++ nat_to_string total ++ " | Generated on " ++ date_string.

(** The footer loop (lines 108-114), pages [i] to [i + k - 1]. *)
Fixpoint draw_footers (i k total : nat) (d : Doc) : Doc :=
  match k with
  | O => d
  | S k' => let d := setPage d i in
            draw_footers (S i) k' total (text d (footer i total) margin 290)
  end.

Definition generateIntegrityReport (result : t) : Outcome :=
  if negb (truthy result) then NoReport else
  match get result "county", method_label (get result "method") with
  | JStr county, Some pipeline =>
      let d := emit new_doc (OpRect 1) in
      let d := text d "BUDGET INTEGRITY REPORT" margin 25 in
      let d := text d (to_upper county ++ " COUNTY | FINANCIAL YEAR "
                       ++ to_str (get result "year")) margin 35 in
      let d := text d ("PIPELINE: " ++ pipeline) margin 40 in
      let score := get (get result "intelligence") "transparency_risk_score" in
      let '(yPos, d) :=
        match score with
        | JUndef => (70%Z, d)
        | _ =>
            let d := text d "FISCAL RISK ASSESSMENT" margin 70 in
            let d := text d ("Score: " ++ to_str score ++ "/100") margin 78 in
            let d := emit d (OpLine (cur d) margin 82 (pageWidth - margin) 82) in
            (93%Z, d)
        end in
      let d := text d "KEY FINANCIAL METRICS" margin yPos in
      let es := object_entries (or (get result "key_metrics") (JObj [])) in
      let '(yPos, d) := draw_metrics es 0 (List.length es) (yPos + 10)%Z d in
      let yPos := (yPos + 5)%Z in
      let d := text d "SENIOR AUDITOR EXECUTIVE SUMMARY" margin yPos in
      match or (get result "summary_text") (JStr "") with
      | JStr s =>
          let lines := splitTextToSize (strip_marks s) (pageWidth - 2 * margin) in
          let '(_, d) := draw_lines lines (yPos + 8)%Z d in
          let total := pages d in
          Saved (draw_footers 1 total total d)
                (county ++ "_Integrity_Report_" ++ to_str (get result "year") ++ ".pdf")
      | _ => Throws
      end
  | _, _ => Throws
  end.

End Generate.

Definition op_text (op : Op) : option string :=
  match op with OpText _ s _ _ => Some s | _ => None end.

Definition texts (d : Doc) : list string := flat_map (fun op =>
  match op_text op with Some s => [s] | None => [] end) (ops d).

End Report.

(** ** County and year selectors of [components/analysis-module.tsx]
    (lines 38-49)

    Strings are byte sequences; [.sort()] without a comparator orders them
    by code units, which is [String.leb] on them.  [toLowerCase] is left as
    a parameter. *)
Module Selector.

(** A row of [/api/documents]; [county] and [year] are [NOT NULL] text
    columns of [uploads]. *)
Record Document : Type := mkDocument {
  doc_county : string;
  doc_year : string;
  doc_analysis_id : Json.t
}.

(** [Array.from(new Set(xs))]: first occurrences, in order. *)
Fixpoint set_from (seen : list string) (xs : list string) : list string :=
  match xs with
  | [] => []
  | x :: rest =>
      if existsb (String.eqb x) seen then set_from seen rest
      else x :: set_from (x :: seen) rest
  end.

Definition array_from_set (xs : list string) : list string := set_from [] xs.

Fixpoint insert_str (x : string) (l : list string) : list string :=
  match l with
  | [] => [x]
  | y :: rest => if String.leb x y then x :: l else y :: insert_str x rest
  end.

(** [.sort()]. *)
Fixpoint sort_str (l : list string) : list string :=
  match l with
  | [] => []
  | x :: rest => insert_str x (sort_str rest)
  end.

Definition availableCounties (documents : list Document) : list string :=
  sort_str (array_from_set (map doc_county documents)).

Definition filteredCounties (to_lower : string -> string)
    (documents : list Document) (countySearch : string) : list string :=
  filter (fun c => str_includes (to_lower c) (to_lower countySearch))
         (availableCounties documents).

Definition availableYears (documents : list Document) (county : string) : list string :=
  rev (sort_str (array_from_set
         (map doc_year (filter (fun d => String.eqb (doc_county d) county) documents)))).

Definition currentDoc (documents : list Document) (county year : string)
    : option Document :=
  find (fun d => String.eqb (doc_county d) county && String.eqb (doc_year d) year)
       documents.

End Selector.

(** ** [app/api/fetchCountyData.ts]: the second copy of the OpenCounty
    proxy, whose success body is [{ data }] *)
Module FetchCountyDataTs.
Import FetchCountyData.

Inductive Body : Type :=
| Error (msg : string)     (* [{ error }] *)
| Data (data : JsValue).   (* [{ data }] *)

Definition GET (fetch : string -> FetchReply) (query : list (string * string))
  : (Z * Body) * list string :=
  let county := search_get query "county" in
  let year := search_get query "year" in
  let category := search_get query "category" in
  if negb (truthy county) || negb (truthy year) || negb (truthy category) then
    ((400%Z, Error "Missing parameters"), [])
  else
    let url := "https://opencounty.org/opencounty/api/?county="
               ++ (match county with Some c => c | None => "" end)
               ++ "&catgroup=api_budget&category="
               ++ (match category with Some c => c | None => "" end)
               ++ "&year=" ++ (match year with Some y => y | None => "" end) in
    match fetch url with
    | FetchThrows msg => ((500%Z, Error (message_or msg "Server error")), [url])
    | FetchResp ok status json =>
        if negb ok then ((status, Error "Failed to fetch from OpenCounty API"), [url])
        else match json with
             | JsonOk data => ((200%Z, Data data), [url])
             | JsonThrows msg => ((500%Z, Error (message_or msg "Server error")), [url])
             end
    end.

End FetchCountyDataTs.

(** ** [GET] of [app/api/reports/route.ts] over the tables of
    [GeminiAnalyze]

    [analysis_results ar JOIN uploads u ON ar.upload_id = u.id]: one row
    per matching pair, with the selected columns.  The [ORDER BY
    created_at] is not modelled (no timestamps); the properties below are
    about which rows are listed. *)
Module Reports.
Import GeminiAnalyze.

Record ReportRow : Type := mkReportRow {
  rep_id : Z;
  rep_county : string;
  rep_year : string;
  rep_summary : string;
  rep_key_metrics : JsValue;
  rep_filenames : list string
}.

Definition GET (db : DB) : list ReportRow :=
  flat_map (fun ar =>
    map (fun u => mkReportRow (ar_id ar) (ar_county ar) (ar_year ar) (ar_summary ar)
                              (ar_revenue ar) (up_filenames u))
        (filter (fun u => sql_eq (ar_upload_id ar) (Some (up_id u))) (uploads db)))
    (analysis_results db).

End Reports.

(** ** The upload and analysis routes over the full tables

    [uploads] with its [county] and [year] columns, and [analysis_results]
    as the analyze route of [app/api/dashboard/stats/route.ts] (lines
    115-193) writes it. *)
Module Tables.
Import Json.

Record UploadRow : Type := mkUploadRow {
  u_id : Z;
  u_county : string;
  u_year : string;
  u_filenames : list string;
  u_status : string
}.

Record ResultRow : Type := mkResultRow {
  r_id : Z;
  r_upload_id : option Z;
  r_county : string;
  r_year : option string;
  r_revenue : t;
  r_expenditure : t;
  r_intelligence : t;
  r_summary : t;          (* [undefined] is stored as [NULL] *)
  r_raw : t
}.

Record TDB : Type := mkTDB {
  t_uploads : list UploadRow;
  t_next_upload : Z;      (* the [SERIAL] sequence of [uploads.id] *)
  t_results : list ResultRow;
  t_next_result : Z       (* the [SERIAL] sequence of [analysis_results.id] *)
}.

(** The view [GeminiAnalyze] has of [uploads]. *)
Definition gemini_upload (u : UploadRow) : GeminiAnalyze.Upload :=
  GeminiAnalyze.mkUpload (u_id u) (u_filenames u) (u_status u).

(** *** [POST] of the upload route ([app/api/trending-merits/[id]/data/route.ts], lines 24-72) *)

Record FormFile : Type := mkFormFile { file_name : string; file_bytes : string }.

Inductive FsEffect : Type :=
| Mkdir
| WriteFile (name : string) (bytes : string).

Inductive UploadReply : Type :=
| UploadMissing                        (* 400 "Missing county, year, or files" *)
| Uploaded (uploaded : list string).   (* 200 [{ success: true, uploaded }] *)

Definition upload_status (r : UploadReply) : Z :=
  match r with UploadMissing => 400 | Uploaded _ => 200 end.

(** [formData.get] gives [null] for a missing field. *)
Definition upload_POST (county year : option string) (files : list FormFile) (db : TDB)
  : UploadReply * list FsEffect * TDB :=
  match county, year, files with
  | Some c, Some y, _ :: _ =>
      if String.eqb c "" || String.eqb y "" then (UploadMissing, [], db) else
      let names := map file_name files in
      (Uploaded names,
       Mkdir :: map (fun f => WriteFile (file_name f) (file_bytes f)) files,
       mkTDB (t_uploads db ++ [mkUploadRow (t_next_upload db) c y names "pending"])
             (t_next_upload db + 1) (t_results db) (t_next_result db))
  | _, _, _ => (UploadMissing, [], db)
  end.

(** *** [POST] of the analyze route (lines 122-193) *)








End Tables.

(** ** Sample inputs

    Documents, analysis replies and requests of the kind the application
    handles, for evaluating the definitions above. *)
Module Samples.
Import Json.

Definition documents : list Selector.Document :=
  [Selector.mkDocument "Nairobi" "2024" JNull;
   Selector.mkDocument "Mombasa" "2024" (JNum 4);
   Selector.mkDocument "Mombasa" "2025" JNull].

(** A GPU reply without [interpreted_data], [key_metrics] or a risk score. *)
Definition gpu_reply : t :=
  JObj [("analysis", JObj [("risk_assessment", JObj [("level", JStr "low")])]);
        ("extraction",
           JObj [("revenue", JObj [("own_source_revenue", JNum 5)]);
                 ("debt", JObj [("pending_bills", JNum 9); ("own_source_revenue", JNum 6)])]);
        ("summary_text", JStr "## Summary: **revenue** fell")].

Definition gpu_result : t :=
  match GPUResults.handleGPUResults gpu_reply "Mombasa" with Some r => r | None => JNull end.

Definition print_number (q : Q) : string := if Qeq_bool q 0 then "0" else "n".

Definition report : Report.Outcome :=
  Report.generateIntegrityReport print_number print_number (fun s => s) 210
    (fun s _ => [s]) "19/10/2026" gpu_result.

Definition report_doc : Report.Doc :=
  match report with Report.Saved d _ => d | _ => Report.new_doc end.

Definition report_file : string :=
  match report with Report.Saved _ f => f | _ => "" end.

Definition opencounty (url : string) : FetchCountyData.FetchReply :=
  FetchCountyData.FetchResp false 404 (FetchCountyData.JsonThrows "Unexpected token").

Definition county_query : list (string * string) :=
  [("county", "Mombasa"); ("year", "2025"); ("category", "revenue")].

Definition request : GeminiAnalyze.Body :=
  GeminiAnalyze.mkBody "CGBIRR August 2025.pdf" "Mombasa" "2025".

Definition python_ok : GeminiAnalyze.Body -> GeminiAnalyze.PyReply :=
  fun _ => GeminiAnalyze.PyOk JsObject (Some "Summary") JsObject.

Definition python_down : GeminiAnalyze.Body -> GeminiAnalyze.PyReply :=
  fun _ => GeminiAnalyze.PyNotOk 503 None.

Definition empty_tables : Tables.TDB := Tables.mkTDB [] 1 [] 1.

Definition pdf_file : Tables.FormFile := Tables.mkFormFile "CGBIRR August 2025.pdf" "%PDF-1.7".

Definition uploaded : Tables.UploadReply * list Tables.FsEffect * Tables.TDB :=
  Tables.upload_POST (Some "Mombasa") (Some "2025") [pdf_file] empty_tables.

Definition gemini_db : GeminiAnalyze.DB :=
  GeminiAnalyze.mkDB (map Tables.gemini_upload (Tables.t_uploads (snd uploaded))) [] 1.


End Samples.

(** * Properties *)

(** ** Display of metric values *)

Lemma append_percent_not_found (s : string) : s ++ "%" <> "Not Found".
Proof.
  intro H.
  do 9 (destruct s as [|? s]; simpl in H; [discriminate | injection H as _ H]).
  destruct s; discriminate.
Qed.

(** C1 (counterexample): with any number printers, the reported value 0 of
    [osr_actual] and an absent ([null]) value are both displayed, on screen
    and in the integrity report, as "Not Found". *)
Lemma formatValue_zero_like_absent :
  formatValue (fun _ => "0") (fun _ => "0") "osr_actual" (JsNumber 0) = "Not Found"
  /\ formatValue (fun _ => "0") (fun _ => "0") "osr_actual" JsNull = "Not Found".
Proof. split; reflexivity. Qed.

(** C1 (amended): [formatValue] (the same helper in the on-screen display
    and in the integrity report) shows [null], [undefined] and the number 0
    as "Not Found", and a number is shown as "Not Found" exactly when it is
    0, provided [String(n)] never prints "Not Found". *)
Theorem formatValue_not_found_cases
  (num_to_string num_to_locale : Q -> string) (key : string)
  (Hprint : forall q, num_to_string q <> "Not Found") :
  formatValue num_to_string num_to_locale key JsNull = "Not Found"
  /\ formatValue num_to_string num_to_locale key JsUndefined = "Not Found"
  /\ (forall q, formatValue num_to_string num_to_locale key (JsNumber q) = "Not Found"
                <-> q == 0).
Proof.
  split; [reflexivity | split; [reflexivity |]].
  intro q. unfold formatValue. simpl.
  destruct (Qeq_bool q 0) eqn:E.
  - split; [intros _ | reflexivity]. now apply Qeq_bool_iff.
  - split.
    + intro H. exfalso.
      destruct (str_includes key "pct" || str_includes key "rate"
                || str_includes key "performance").
      * exact (append_percent_not_found _ H).
      * destruct (negb (Qle_bool q 1000)); [discriminate | exact (Hprint q H)].
    + intro Hq. apply Qeq_bool_iff in Hq. congruence.
Qed.

Lemma formatValue_not_found_cases_witness :
  (forall q : Q, "1" <> "Not Found")
  /\ formatValue (fun _ => "1") (fun _ => "1") "osr_actual" JsNull = "Not Found"
  /\ formatValue (fun _ => "1") (fun _ => "1") "osr_actual" JsUndefined = "Not Found"
  /\ (forall q, formatValue (fun _ => "1") (fun _ => "1") "osr_actual" (JsNumber q)
                = "Not Found" <-> q == 0).
Proof.
  assert (H : forall q : Q, "1" <> "Not Found") by (intros _; discriminate).
  split; [exact H |].
  exact (formatValue_not_found_cases (fun _ => "1") (fun _ => "1") "osr_actual" H).
Defined.

(** ** [FetchCountyData] *)

(** C9: a GET request lacking [county], [year] or [category] is answered
    with status 400 and a JSON error, and no request reaches the OpenCounty
    API. *)
Theorem fetchCountyData_missing_param_400
  (fetch : string -> FetchCountyData.FetchReply) (query : list (string * string))
  (Hmissing : FetchCountyData.search_get query "county" = None
              \/ FetchCountyData.search_get query "year" = None
              \/ FetchCountyData.search_get query "category" = None) :
  FetchCountyData.GET fetch query
  = (mkResponse 400 (BodyError "Missing parameters"), []).
Proof.
  unfold FetchCountyData.GET.
  destruct Hmissing as [H | [H | H]]; rewrite H; simpl;
    [reflexivity | | ]; rewrite ?orb_true_r; reflexivity.
Qed.

Lemma fetchCountyData_missing_param_400_witness :
  FetchCountyData.search_get [("county", "Mombasa"); ("year", "2025")] "category" = None
  /\ FetchCountyData.GET (fun _ => FetchCountyData.FetchThrows "unreachable")
       [("county", "Mombasa"); ("year", "2025")]
     = (mkResponse 400 (BodyError "Missing parameters"), []).
Proof.
  split; [reflexivity |].
  apply fetchCountyData_missing_param_400. right. right. reflexivity.
Defined.

(** ** Gemini analyze route *)

Module GeminiFacts.
Import GeminiAnalyze.
Local Open Scope nat_scope.

Definition pair_pred (uid : option Z) (c : string) (r : AnalysisRow) : bool :=
  match ar_upload_id r, uid with
  | Some x, Some y => Z.eqb x y
  | None, None => true
  | _, _ => false
  end && String.eqb (ar_county r) c.

Lemma rows_for_pair_pred uid c db :
  rows_for uid c db = List.length (filter (pair_pred uid c) (analysis_results db)).
Proof. reflexivity. Qed.

Lemma filter_map_same {A} (P : A -> bool) (g : A -> A) (l : list A) :
  (forall x, P (g x) = P x) ->
  List.length (filter P (map g l)) = List.length (filter P l).
Proof.
  intros Hg. induction l as [|x l IH]; simpl; [reflexivity|].
  rewrite Hg. destruct (P x); simpl; auto.
Qed.

Lemma find_none_filter {A} (f g : A -> bool) (l : list A) :
  (forall x, f x = g x) -> find g l = None -> filter f l = [].
Proof.
  intros Hfg. induction l as [|x l IH]; simpl; [reflexivity|].
  rewrite Hfg. destruct (g x); [discriminate | exact IH].
Qed.

(** When the PDF belongs to a recorded upload, a POST keeps at most one
    analysis row for the pair [(upload_id, county)]. *)
Lemma post_found_upload_keeps_unique python b db u :
  fst (select_upload (pdfId b) db) = Some u ->
  rows_for (Some u) (county b) db <= 1 ->
  rows_for (Some u) (county b) (snd (POST python b db)) <= 1.
Proof.
  intros Hu Hle. unfold POST.
  destruct (python b) as [st d | km summ res]; [exact Hle|].
  unfold bind, select_upload, select_analysis. simpl in Hu |- *. rewrite Hu. simpl.
  rewrite rows_for_pair_pred in *.
  destruct (find (fun r => sql_eq (ar_upload_id r) (Some u) && String.eqb (ar_county r) (county b))
                 (analysis_results db)) as [row|] eqn:Ef; simpl.
  - (* update in place *)
    rewrite filter_map_same; [exact Hle|].
    intros r. destruct (Z.eqb (ar_id r) (ar_id row)); reflexivity.
  - (* insert *)
    assert (Hf : filter (pair_pred (Some u) (county b)) (analysis_results db) = []).
    { refine (find_none_filter _ _ _ _ Ef).
      intros r. unfold pair_pred, sql_eq. destruct (ar_upload_id r); reflexivity. }
    rewrite filter_app, Hf. simpl. unfold pair_pred. simpl.
    rewrite Z.eqb_refl, String.eqb_refl. simpl. lia.
Qed.

Definition empty_db : DB := mkDB [] [] 1.
Definition mombasa_request : Body := mkBody "CGBIRR August 2025.pdf" "Mombasa" "2025".
Definition python_ok : Body -> PyReply :=
  fun _ => PyOk JsObject (Some "Summary") JsObject.

End GeminiFacts.

(** C10 (code_bug): when the PDF is in no recorded upload, [upload_id] is
    [NULL]; the existence check [upload_id = $1] never matches [NULL], so
    repeating the same POST inserts a second row for the pair
    [(NULL, "Mombasa")]. *)
Theorem gemini_repeat_post_duplicates_null_upload :
  let db1 := snd (GeminiAnalyze.POST GeminiFacts.python_ok GeminiFacts.mombasa_request
                    GeminiFacts.empty_db) in
  let db2 := snd (GeminiAnalyze.POST GeminiFacts.python_ok GeminiFacts.mombasa_request db1) in
  GeminiAnalyze.rows_for None "Mombasa" db1 = 1%nat
  /\ GeminiAnalyze.rows_for None "Mombasa" db2 = 2%nat.
Proof. split; vm_compute; reflexivity. Qed.

(** ** Page locator: formula step *)

Lemma widen_head (s step : nat) : exists t, Locator.widen s step = s :: t.
Proof.
  induction step as [|j [t IH]]; simpl.
  - exists []. reflexivity.
  - rewrite IH. eexists. reflexivity.
Qed.

(** C4: spec-modelled.  When the LayoutIndex gives start page [s] for a
    region, the formula step yields exactly [{s, ..., s+k}], and when page
    [s] carries the region's header, [locate] returns that range. *)
Theorem locate_formula_range (idx : Locator.LayoutIndex) (page_text : nat -> string)
  (k : nat) (region : string) (s : nat)
  (Htoc : Locator.toc_lookup idx region = Some s) :
  Locator.formula_lookup idx region k = Some (seq s (S k))
  /\ (Locator.header_ok page_text region s = true ->
      Locator.locate_toc idx page_text k region = Locator.Located (seq s (S k))).
Proof.
  unfold Locator.formula_lookup, Locator.locate_toc. rewrite Htoc.
  split; [reflexivity|].
  intros Hh. destruct (widen_head s 2) as [t Ht]. rewrite Ht. simpl.
  rewrite Hh. reflexivity.
Qed.

Definition toc_sample : Locator.LayoutIndex :=
  [("Migori", 312%nat); ("Mombasa", 324%nat); ("Murang'a", 335%nat)].

Definition sample_page_text (p : nat) : string :=
  if Nat.eqb p 324 then "3.28. County Government of Mombasa" else "".

(** Scenario A: Mombasa, TOC entry 324, section length 4. *)
Lemma locate_formula_range_witness :
  Locator.toc_lookup toc_sample "mombasa" = Some 324%nat
  /\ Locator.formula_lookup toc_sample "mombasa" 4 = Some [324; 325; 326; 327; 328]%nat
  /\ Locator.locate_toc toc_sample sample_page_text 4 "Mombasa"
     = Locator.Located [324; 325; 326; 327; 328]%nat.
Proof.
  split; [reflexivity|].
  destruct (locate_formula_range toc_sample sample_page_text 4 "mombasa" 324
              eq_refl) as [H1 _].
  split; [exact H1|].
  destruct (locate_formula_range toc_sample sample_page_text 4 "Mombasa" 324
              eq_refl) as [_ H2].
  apply H2. vm_compute. reflexivity.
Defined.

(** ** Vision extractor *)

(** C5: spec-modelled.  A "warming up" reply is retried exactly once,
    after the fixed 20s backoff; any other first reply is not retried; a
    page the service never answers successfully is recorded with empty
    markdown and confidence 0; the extraction stage returns one result for
    every rendered page, in order. *)
Theorem extract_retry_once (Image : Type) (svc : Image -> nat -> Pipeline.ServiceReply)
  (img : Image) (p : nat) :
  (svc img 0%nat = Pipeline.SvcWarmingUp ->
   snd (Pipeline.extract Image svc img p)
   = [Pipeline.CallService 0; Pipeline.Sleep 20; Pipeline.CallService 1])
  /\ (svc img 0%nat <> Pipeline.SvcWarmingUp ->
      snd (Pipeline.extract Image svc img p) = [Pipeline.CallService 0])
  /\ ((forall n md c, svc img n <> Pipeline.SvcOk md c) ->
      fst (Pipeline.extract Image svc img p) = Pipeline.mkResult p "" 0)
  /\ (forall images : list (nat * Image),
      map Pipeline.er_page (Pipeline.extract_all Image svc images) = map fst images).
Proof.
  unfold Pipeline.extract. simpl.
  split; [| split; [| split]].
  - intros H. rewrite H. destruct (svc img 1%nat); reflexivity.
  - intros H. destruct (svc img 0%nat); [reflexivity | congruence | reflexivity].
  - intros Hfail. destruct (svc img 0%nat) as [md c | | m] eqn:E0.
    + exfalso. exact (Hfail 0%nat md c E0).
    + destruct (svc img 1%nat) as [md c | | m] eqn:E1;
        [exfalso; exact (Hfail 1%nat md c E1) | reflexivity | reflexivity].
    + reflexivity.
  - intros images. unfold Pipeline.extract_all. rewrite map_map.
    apply map_ext. intros [q i]. unfold Pipeline.extract. simpl.
    destruct (svc i 0%nat); [reflexivity | | reflexivity].
    destruct (svc i 1%nat); reflexivity.
Qed.

Lemma extract_retry_once_witness :
  snd (Pipeline.extract unit
         (fun _ n => if Nat.eqb n 0 then Pipeline.SvcWarmingUp else Pipeline.SvcError "503")
         tt 7)
  = [Pipeline.CallService 0; Pipeline.Sleep 20; Pipeline.CallService 1]
  /\ fst (Pipeline.extract unit
            (fun _ n => if Nat.eqb n 0 then Pipeline.SvcWarmingUp else Pipeline.SvcError "503")
            tt 7)
     = Pipeline.mkResult 7 "" 0.
Proof.
  destruct (extract_retry_once unit
              (fun _ n => if Nat.eqb n 0 then Pipeline.SvcWarmingUp else Pipeline.SvcError "503")
              tt 7) as [H1 [_ [H3 _]]].
  split; [apply H1; reflexivity |].
  apply H3. intros n md c. destruct (Nat.eqb n 0); discriminate.
Defined.

(** ** Sorting lemmas for the orchestrator *)

Module SortFacts.
Import Pipeline.
Local Open Scope nat_scope.

Lemma insert_nat_perm x l : Permutation (insert_nat x l) (x :: l).
Proof.
  induction l as [|y t IH]; simpl; [reflexivity|].
  destruct (x <=? y); [reflexivity|].
  rewrite IH. apply perm_swap.
Qed.

Lemma sort_nat_perm l : Permutation (sort_nat l) l.
Proof.
  induction l as [|x t IH]; simpl; [reflexivity|].
  rewrite insert_nat_perm, IH. reflexivity.
Qed.

Lemma insert_nat_sorted x l : Sorted le l -> Sorted le (insert_nat x l).
Proof.
  induction 1 as [|y t Hs IH Hhd]; simpl.
  - repeat constructor.
  - destruct (x <=? y) eqn:E.
    + apply Nat.leb_le in E. repeat constructor; auto.
    + apply Nat.leb_gt in E. constructor; [exact IH|].
      destruct t as [|z t']; simpl; [constructor; lia|].
      inversion Hhd; subst.
      destruct (x <=? z); constructor; lia.
Qed.

Lemma sort_nat_sorted l : Sorted le (sort_nat l).
Proof. induction l; simpl; [constructor | now apply insert_nat_sorted]. Qed.

Lemma insert_result_perm x l : Permutation (insert_result x l) (x :: l).
Proof.
  induction l as [|y t IH]; simpl; [reflexivity|].
  destruct (er_page x <=? er_page y); [reflexivity|].
  rewrite IH. apply perm_swap.
Qed.

Lemma sort_by_page_perm l : Permutation (sort_by_page l) l.
Proof.
  induction l as [|x t IH]; simpl; [reflexivity|].
  rewrite insert_result_perm, IH. reflexivity.
Qed.

Lemma insert_result_sorted x l :
  Sorted le (map er_page l) -> Sorted le (map er_page (insert_result x l)).
Proof.
  induction l as [|y t IH]; simpl; intros Hs.
  - repeat constructor.
  - destruct (er_page x <=? er_page y) eqn:E.
    + apply Nat.leb_le in E. simpl. constructor; [exact Hs | constructor; exact E].
    + apply Nat.leb_gt in E. simpl. inversion Hs as [|? ? Ht Hhd]; subst.
      constructor; [exact (IH Ht)|].
      destruct t as [|z t']; simpl; [constructor; lia|].
      simpl in Hhd. inversion Hhd; subst.
      destruct (er_page x <=? er_page z); constructor; lia.
Qed.

Lemma sort_by_page_sorted l : Sorted le (map er_page (sort_by_page l)).
Proof. induction l; simpl; [constructor | now apply insert_result_sorted]. Qed.

(** Two sorted permutations of each other are equal. *)
Lemma sorted_perm_eq (l1 l2 : list nat) :
  Sorted le l1 -> Sorted le l2 -> Permutation l1 l2 -> l1 = l2.
Proof.
  intros H1 H2. apply Sorted_StronglySorted in H1; [|intros ? ? ?; lia].
  apply Sorted_StronglySorted in H2; [|intros ? ? ?; lia].
  revert l2 H2. induction H1 as [|a t1 Hs1 IH Hall1]; intros l2 H2 Hp.
  - symmetry. apply Permutation_nil. exact Hp.
  - destruct H2 as [|b t2 Hs2 Hall2].
    + apply Permutation_sym, Permutation_nil in Hp. discriminate.
    + assert (Hab : a = b).
      { assert (Ha : In a (b :: t2)) by (eapply Permutation_in; [exact Hp | left; reflexivity]).
        assert (Hb : In b (a :: t1))
          by (eapply Permutation_in; [symmetry; exact Hp | left; reflexivity]).
        destruct Ha as [Ha | Ha]; [now subst|].
        destruct Hb as [Hb | Hb]; [now subst|].
        rewrite Forall_forall in Hall1, Hall2.
        specialize (Hall1 b Hb). specialize (Hall2 a Ha). lia. }
      subst b. f_equal. apply IH; [exact Hs2|].
      exact (Permutation_cons_inv Hp).
Qed.

Lemma filter_sorted (f : nat -> bool) l : Sorted le l -> Sorted le (filter f l).
Proof.
  intros H. apply Sorted_StronglySorted in H; [|intros ? ? ?; lia].
  apply StronglySorted_Sorted.
  induction H as [|a t Hs IH Hall]; simpl; [constructor|].
  destruct (f a); [|exact IH].
  constructor; [exact IH|].
  rewrite Forall_forall in *. intros x Hx. apply filter_In in Hx. apply Hall, Hx.
Qed.

Lemma sorted_nodup_strict (l : list nat) :
  Sorted le l -> NoDup l -> StronglySorted lt l.
Proof.
  intros H Hnd. apply Sorted_StronglySorted in H; [|intros ? ? ?; lia].
  induction H as [|a t Hs IH Hall]; [constructor|].
  inversion Hnd as [|? ? Hnotin Hnd']; subst.
  constructor; [exact (IH Hnd')|].
  rewrite Forall_forall in *. intros x Hx.
  assert (a <> x) by (intro; subst; contradiction). specialize (Hall x Hx). lia.
Qed.

Lemma sorted_union_props (rr cr : list nat) :
  Sorted le (sorted_union rr cr) /\ NoDup (sorted_union rr cr).
Proof.
  unfold sorted_union. split; [apply sort_nat_sorted|].
  eapply Permutation_NoDup; [symmetry; apply sort_nat_perm | apply NoDup_nodup].
Qed.

End SortFacts.

(** ** Orchestrator *)

Module RunFacts.
Import Pipeline SortFacts.
Local Open Scope nat_scope.

Definition rendered {Image} (render : nat -> option Image) (p : nat) : bool :=
  match render p with Some _ => true | None => false end.

Lemma render_pages_pages Image (render : nat -> option Image) pages :
  map fst (render_pages Image render pages) = filter (rendered render) pages.
Proof.
  induction pages as [|p t IH]; simpl; [reflexivity|].
  destruct (render p) eqn:E; simpl.
  - replace (rendered render p) with true by (unfold rendered; now rewrite E).
    f_equal. exact IH.
  - replace (rendered render p) with false by (unfold rendered; now rewrite E).
    exact IH.
Qed.

Lemma extract_all_pages Image (svc : Image -> nat -> ServiceReply) images :
  map er_page (extract_all Image svc images) = map fst images.
Proof.
  unfold extract_all. rewrite map_map.
  apply map_ext. intros [q i]. unfold extract. simpl.
  destruct (svc i 0); [reflexivity | | reflexivity].
  destruct (svc i 1); reflexivity.
Qed.

End RunFacts.

(** C7 (amended): spec-modelled.  Whatever order the extraction calls
    complete in, the results handed to the parser are in strictly
    ascending page order and are exactly the pages of the deduplicated
    union of the region and context ranges that rendered. *)
Theorem run_results_page_order (Image Analysis : Type)
  (locate_ranges : string -> option (list nat * list nat))
  (render : nat -> option Image) (svc : Image -> nat -> Pipeline.ServiceReply)
  (completion_order : list Pipeline.ExtractionResult -> list Pipeline.ExtractionResult)
  (labels : Pipeline.Field -> list string) (primary : string -> Pipeline.PrimaryOutcome)
  (analyze : Pipeline.FinancialRecord -> Analysis)
  (Hperm : forall l, Permutation (completion_order l) l)
  (region : string) (res : Pipeline.RunResult Analysis)
  (Hrun : snd (Pipeline.run Image Analysis locate_ranges render svc completion_order
                 labels primary analyze region) = Some res) :
  Pipeline.rr_pages res
  = Pipeline.sorted_union (Pipeline.rr_region res)
                          (Pipeline.rr_context res)
  /\ map Pipeline.er_page (Pipeline.rr_results res)
     = filter (RunFacts.rendered render) (Pipeline.rr_pages res)
  /\ StronglySorted lt (map Pipeline.er_page (Pipeline.rr_results res)).
Proof.
  unfold Pipeline.run in Hrun.
  destruct (locate_ranges region) as [[rr cr]|]; [|discriminate].
  destruct (Pipeline.render_pages Image render (Pipeline.sorted_union rr cr))
    as [|i is] eqn:Er; [discriminate|].
  destruct (Pipeline.parse_stage labels primary _) as [record used].
  simpl in Hrun. injection Hrun as <-.
  cbn [Pipeline.rr_results Pipeline.rr_pages Pipeline.rr_region Pipeline.rr_context].
  assert (Heq : map Pipeline.er_page
                  (Pipeline.sort_by_page (completion_order (Pipeline.extract_all Image svc (i :: is))))
                = filter (RunFacts.rendered render) (Pipeline.sorted_union rr cr)).
  { destruct (SortFacts.sorted_union_props rr cr) as [Hs _].
    apply SortFacts.sorted_perm_eq.
    - apply SortFacts.sort_by_page_sorted.
    - apply SortFacts.filter_sorted, Hs.
    - rewrite <- RunFacts.render_pages_pages, Er.
      rewrite <- (RunFacts.extract_all_pages Image svc).
      apply Permutation_map.
      rewrite SortFacts.sort_by_page_perm. apply Hperm. }
  split; [reflexivity|]. split; [exact Heq|].
  simpl in Heq. rewrite Heq. destruct (SortFacts.sorted_union_props rr cr) as [Hs Hnd].
  apply SortFacts.sorted_nodup_strict.
  - apply SortFacts.filter_sorted, Hs.
  - apply NoDup_filter, Hnd.
Qed.

Module RunDemo.
Local Open Scope nat_scope.

(** A region range and a context range sharing page 325. *)
Definition demo_locate (_ : string) : option (list nat * list nat) :=
  Some ([326; 324; 325], [325; 45]).

Definition demo_run (render : nat -> option unit) :=
  Pipeline.run unit unit demo_locate render
    (fun _ _ => Pipeline.SvcOk "| Own Source Revenue | 1,000 |" 1)
    (@rev _) (fun _ => ["Own Source Revenue"]) (fun _ => Pipeline.PrimaryFailed)
    (fun _ => tt) "Mombasa".

Lemma rev_completion_perm (l : list Pipeline.ExtractionResult) : Permutation (rev l) l.
Proof. symmetry. apply Permutation_rev. Qed.

End RunDemo.

Lemma run_results_page_order_witness :
  exists res, snd (RunDemo.demo_run (fun _ => Some tt)) = Some res
  /\ Pipeline.rr_pages res = Pipeline.sorted_union (Pipeline.rr_region res) (Pipeline.rr_context res)
  /\ map Pipeline.er_page (Pipeline.rr_results res)
     = filter (RunFacts.rendered (fun _ => Some tt)) (Pipeline.rr_pages res)
  /\ StronglySorted lt (map Pipeline.er_page (Pipeline.rr_results res)).
Proof.
  eexists. split; [reflexivity|].
  apply (run_results_page_order unit unit RunDemo.demo_locate (fun _ => Some tt)
           (fun _ _ => Pipeline.SvcOk "| Own Source Revenue | 1,000 |" 1)
           (@rev _) (fun _ => ["Own Source Revenue"]) (fun _ => Pipeline.PrimaryFailed)
           (fun _ => tt) RunDemo.rev_completion_perm "Mombasa").
  reflexivity.
Defined.

(** C7 (counterexample): spec-modelled.  When page 325 fails to render,
    the results handed to the parser cover pages 45, 324 and 326 only,
    not the whole deduplicated union 45, 324, 325, 326. *)
Lemma run_results_skip_unrendered_page :
  exists res,
    snd (RunDemo.demo_run (fun p => if Nat.eqb p 325 then None else Some tt)) = Some res
    /\ map Pipeline.er_page (Pipeline.rr_results res) = [45; 324; 326]%nat
    /\ Pipeline.sorted_union (Pipeline.rr_region res) (Pipeline.rr_context res)
       = [45; 324; 325; 326]%nat
    /\ map Pipeline.er_page (Pipeline.rr_results res)
       <> Pipeline.sorted_union (Pipeline.rr_region res) (Pipeline.rr_context res).
Proof.
  eexists. split; [reflexivity|].
  split; [reflexivity|]. split; [reflexivity|].
  vm_compute. discriminate.
Qed.

(** ** Parsing text without digits *)

Module ParseFacts.
Import Pipeline.
Local Open Scope nat_scope.

Fixpoint has_digit (s : string) : bool :=
  match s with
  | EmptyString => false
  | String c rest => is_digit c || has_digit rest
  end.

Lemma has_digit_app s t : has_digit (s ++ t) = has_digit s || has_digit t.
Proof.
  induction s as [|c s IH]; simpl; [reflexivity|].
  rewrite IH, orb_assoc. reflexivity.
Qed.

Lemma number_in_no_digit s : has_digit s = false -> number_in s = None.
Proof.
  induction s as [|c s IH]; simpl; [reflexivity|].
  intros H. apply orb_false_iff in H as [Hc Hs].
  rewrite Hc. exact (IH Hs).
Qed.

Lemma split_lines_no_digit s cur :
  has_digit s = false -> has_digit cur = false ->
  Forall (fun l => has_digit l = false) (split_lines_acc s cur).
Proof.
  revert cur. induction s as [|c s IH]; intros cur Hs Hcur; simpl.
  - constructor; [exact Hcur | constructor].
  - simpl in Hs. apply orb_false_iff in Hs as [Hc Hs].
    destruct (Ascii.eqb c newline).
    + constructor; [exact Hcur|]. apply IH; [exact Hs | reflexivity].
    + apply IH; [exact Hs|]. rewrite has_digit_app. simpl. rewrite Hcur, Hc. reflexivity.
Qed.

(** The rule-based parser finds no value in a text without digits. *)
Lemma fallback_no_digit labels md :
  has_digit md = false -> forall f, fallback_parse labels md f = None.
Proof.
  intros Hmd f. unfold fallback_parse.
  assert (Hl := split_lines_no_digit md EmptyString Hmd eq_refl).
  unfold split_lines. induction Hl as [|l ls Hl0 Hls IH]; simpl; [reflexivity|].
  destruct (existsb _ (labels f)); [rewrite number_in_no_digit by exact Hl0|]; exact IH.
Qed.

Lemma concat_no_digit sep (ls : list string) :
  has_digit sep = false -> Forall (fun m => has_digit m = false) ls ->
  has_digit (String.concat sep ls) = false.
Proof.
  intros Hsep Hls. induction Hls as [|m ms Hm Hms IH]; [reflexivity|].
  destruct ms as [|m' ms'].
  - exact Hm.
  - change (has_digit (m ++ sep ++ String.concat sep (m' :: ms')) = false).
    rewrite !has_digit_app, Hm, Hsep, IH. reflexivity.
Qed.

End ParseFacts.

Module RunFacts2.
Import Pipeline.
Local Open Scope nat_scope.

Lemma extract_all_failed Image (svc : Image -> nat -> ServiceReply) images :
  (forall img n md c, svc img n <> SvcOk md c) ->
  Forall (fun r => er_markdown r = "") (extract_all Image svc images).
Proof.
  intros Hfail. unfold extract_all. apply Forall_forall.
  intros r Hr. apply in_map_iff in Hr as [[p img] [<- _]].
  unfold extract. simpl.
  destruct (svc img 0) as [md c | | m] eqn:E0;
    [exfalso; exact (Hfail img 0 md c E0) | | reflexivity].
  destruct (svc img 1) as [md c | | m] eqn:E1;
    [exfalso; exact (Hfail img 1 md c E1) | reflexivity | reflexivity].
Qed.

(** The parse stage on a text without digits yields the all-"not found"
    record, when the learned parser does not invent values. *)
Lemma parse_stage_no_digit labels (primary : string -> PrimaryOutcome) md :
  (primary md = PrimaryFailed
   \/ exists r, primary md = PrimaryRecord r /\ record_empty r = true) ->
  ParseFacts.has_digit md = false ->
  forall f, fst (parse_stage labels primary md) f = None.
Proof.
  intros Hp Hmd f. unfold parse_stage.
  destruct Hp as [-> | [r [-> Hr]]]; [|rewrite Hr]; simpl;
    apply ParseFacts.fallback_no_digit; exact Hmd.
Qed.

End RunFacts2.

(** C6: spec-modelled.  In a run, [FAILED] is entered only from
    [LOCATING] or [RENDERING]; once [EXTRACTING] is reached the run ends
    in [DONE] with a result; and when every extraction call fails (and the
    learned parser does not invent values for a text without figures) the
    run still completes, with an all-"not found" FinancialRecord. *)
Theorem run_failed_only_early (Image Analysis : Type)
  (locate_ranges : string -> option (list nat * list nat))
  (render : nat -> option Image) (svc : Image -> nat -> Pipeline.ServiceReply)
  (completion_order : list Pipeline.ExtractionResult -> list Pipeline.ExtractionResult)
  (labels : Pipeline.Field -> list string) (primary : string -> Pipeline.PrimaryOutcome)
  (analyze : Pipeline.FinancialRecord -> Analysis)
  (Hperm : forall l, Permutation (completion_order l) l) (region : string) :
  let out := Pipeline.run Image Analysis locate_ranges render svc completion_order
               labels primary analyze region in
  (forall s, In (s, Pipeline.FAILED) (Pipeline.transitions (fst out)) ->
             s = Pipeline.LOCATING \/ s = Pipeline.RENDERING)
  /\ (In Pipeline.EXTRACTING (fst out) ->
      ~ In Pipeline.FAILED (fst out) /\ last (fst out) Pipeline.FAILED = Pipeline.DONE
      /\ exists res, snd out = Some res)
  /\ ((forall img n md c, svc img n <> Pipeline.SvcOk md c) ->
      (forall md, ParseFacts.has_digit md = false ->
                  primary md = Pipeline.PrimaryFailed
                  \/ exists r, primary md = Pipeline.PrimaryRecord r
                               /\ Pipeline.record_empty r = true) ->
      In Pipeline.EXTRACTING (fst out) ->
      exists res, snd out = Some res /\ forall f, Pipeline.rr_record res f = None).
Proof.
  intros out. unfold out, Pipeline.run.
  destruct (locate_ranges region) as [[rr cr]|].
  2:{ simpl. split; [intros s [H | []]; injection H as ->; left; reflexivity|].
      split; intros; repeat match goal with H : _ \/ _ |- _ => destruct H end;
        discriminate || contradiction. }
  destruct (Pipeline.render_pages Image render (Pipeline.sorted_union rr cr))
    as [|i is] eqn:Er.
  { simpl. split; [intros s [H | [H | []]]; injection H as ->; [discriminate | right; reflexivity]|].
    split; intros; repeat match goal with H : _ \/ _ |- _ => destruct H end;
      discriminate || contradiction. }
  destruct (Pipeline.parse_stage labels primary
              (Pipeline.concat_markdown
                 (Pipeline.sort_by_page (completion_order (Pipeline.extract_all Image svc (i :: is))))))
    as [record used] eqn:Ep.
  split; [|split].
  - simpl. intros s H.
    repeat (destruct H as [H | H]; [injection H as _ H; discriminate |]). contradiction.
  - intros _. split; [simpl; intuition discriminate|].
    split; [reflexivity | eexists; reflexivity].
  - intros Hfail Hprim _. eexists. split; [reflexivity|]. simpl.
    set (md := Pipeline.concat_markdown
                 (Pipeline.sort_by_page (completion_order (Pipeline.extract_all Image svc (i :: is))))) in Ep.
    assert (Hmd : ParseFacts.has_digit md = false).
    { unfold md, Pipeline.concat_markdown. apply ParseFacts.concat_no_digit; [reflexivity|].
      apply Forall_map. apply Forall_forall. intros r Hr.
      assert (Hin : In r (Pipeline.extract_all Image svc (i :: is))).
      { eapply Permutation_in; [| exact Hr].
        rewrite SortFacts.sort_by_page_perm. apply Hperm. }
      pose proof (RunFacts2.extract_all_failed Image svc (i :: is) Hfail) as Hall.
      rewrite Forall_forall in Hall. rewrite (Hall r Hin). reflexivity. }
    intros f.
    pose proof (RunFacts2.parse_stage_no_digit labels primary md (Hprim md Hmd) Hmd f) as Hf.
    rewrite Ep in Hf. exact Hf.
Qed.

(** Scenario C: every extraction call fails. *)
Lemma run_failed_only_early_witness :
  exists res,
    snd (Pipeline.run unit unit RunDemo.demo_locate (fun _ => Some tt)
           (fun _ _ => Pipeline.SvcError "503") (@rev _) (fun _ => ["Own Source Revenue"])
           (fun _ => Pipeline.PrimaryFailed) (fun _ => tt) "Mombasa") = Some res
    /\ forall f, Pipeline.rr_record res f = None.
Proof.
  destruct (run_failed_only_early unit unit RunDemo.demo_locate (fun _ => Some tt)
              (fun _ _ => Pipeline.SvcError "503") (@rev _) (fun _ => ["Own Source Revenue"])
              (fun _ => Pipeline.PrimaryFailed) (fun _ => tt) RunDemo.rev_completion_perm
              "Mombasa") as [_ [_ H3]].
  apply H3.
  - intros img n md c. discriminate.
  - intros md _. left. reflexivity.
  - simpl. tauto.
Defined.

(** ** County and year selectors *)

Module SelectorFacts.
Import Selector.

Lemma set_from_in seen xs x :
  In x (set_from seen xs) <-> In x xs /\ ~ In x seen.
Proof.
  revert seen. induction xs as [|y xs IH]; intros seen; simpl.
  - tauto.
  - destruct (existsb (String.eqb y) seen) eqn:E.
    + rewrite IH. apply existsb_exists in E as [z [Hz Ez]].
      apply String.eqb_eq in Ez. subst z.
      split; [tauto|]. intros [[<- | H] Hn]; [contradiction | tauto].
    + simpl. rewrite IH. simpl.
      assert (~ In y seen).
      { intros Hy. assert (existsb (String.eqb y) seen = true) as E'
          by (apply existsb_exists; exists y; split; [exact Hy | apply String.eqb_refl]).
        congruence. }
      split.
      * intros [<- | [H1 H2]]; [tauto|]. split; [tauto|]. tauto.
      * intros [[<- | H1] H2]; [tauto|].
        destruct (String.eqb_spec y x) as [<-|Hne]; [tauto|].
        right. split; [exact H1|]. intros [H3|H3]; [congruence | tauto].
Qed.

Lemma set_from_nodup seen xs : NoDup (set_from seen xs).
Proof.
  revert seen. induction xs as [|y xs IH]; intros seen; simpl.
  - constructor.
  - destruct (existsb (String.eqb y) seen); [apply IH|].
    constructor; [|apply IH].
    rewrite set_from_in. simpl. tauto.
Qed.

Lemma insert_str_perm x l : Permutation (insert_str x l) (x :: l).
Proof.
  induction l as [|y l IH]; simpl; [reflexivity|].
  destruct (String.leb x y); [reflexivity|].
  rewrite IH. apply perm_swap.
Qed.

Lemma sort_str_perm l : Permutation (sort_str l) l.
Proof.
  induction l as [|x l IH]; simpl; [reflexivity|].
  rewrite insert_str_perm. now apply perm_skip.
Qed.

Definition sle (a b : string) : Prop := String.leb a b = true.

Lemma leb_flip a b : String.leb a b = false -> sle b a.
Proof.
  intros H. unfold sle. destruct (String.leb_total a b) as [H'|H']; congruence.
Qed.

Lemma insert_str_sorted x l : Sorted sle l -> Sorted sle (insert_str x l).
Proof.
  induction 1 as [|y l Hs IH Hd]; simpl.
  - repeat constructor.
  - destruct (String.leb x y) eqn:E.
    + constructor; [constructor; assumption | constructor; exact E].
    + constructor; [exact IH|].
      destruct l as [|z l]; simpl.
      * constructor. now apply leb_flip.
      * inversion Hd; subst. destruct (String.leb x z); constructor;
          [now apply leb_flip | assumption].
Qed.

Lemma sort_str_sorted l : Sorted sle (sort_str l).
Proof.
  induction l as [|x l IH]; simpl; [constructor|]. now apply insert_str_sorted.
Qed.

Lemma sorted_snoc {A} (R : A -> A -> Prop) (l : list A) (a b : A) :
  Sorted R (l ++ [a])%list -> R a b -> Sorted R (l ++ [a; b])%list.
Proof.
  revert a. induction l as [|x l IH]; intros a Hs Hab; simpl in *.
  - repeat constructor. exact Hab.
  - inversion Hs as [|? ? Hs' Hd]; subst. constructor.
    + now apply IH.
    + destruct l; simpl in *; inversion Hd; subst; constructor; assumption.
Qed.

Lemma sorted_rev {A} (R : A -> A -> Prop) (l : list A) :
  Sorted R l -> Sorted (fun a b => R b a) (rev l).
Proof.
  induction 1 as [|x l Hs IH Hd]; simpl; [constructor|].
  destruct l as [|y l]; simpl in *.
  - repeat constructor.
  - inversion Hd; subst. simpl in IH.
    rewrite <- app_assoc. simpl.
    apply sorted_snoc; assumption.
Qed.

End SelectorFacts.

(** X1: [availableCounties] lists each county that some document has, once,
    in ascending order. *)
Theorem availableCounties_sorted_unique (documents : list Selector.Document) :
  let l := Selector.availableCounties documents in
  Sorted (fun a b => String.leb a b = true) l /\ NoDup l /\
  forall c, In c l <-> exists d, In d documents /\ Selector.doc_county d = c.
Proof.
  intros l. unfold l, Selector.availableCounties, Selector.array_from_set.
  split; [apply SelectorFacts.sort_str_sorted|]. split.
  - eapply Permutation_NoDup; [symmetry; apply SelectorFacts.sort_str_perm|].
    apply SelectorFacts.set_from_nodup.
  - intros c. split.
    + intros H. eapply Permutation_in in H; [|apply SelectorFacts.sort_str_perm].
      apply SelectorFacts.set_from_in in H as [H _]. apply in_map_iff in H as [d [Hd Hin]].
      eauto.
    + intros [d [Hin Hd]]. eapply Permutation_in; [symmetry; apply SelectorFacts.sort_str_perm|].
      apply SelectorFacts.set_from_in. split; [|simpl; tauto].
      apply in_map_iff. eauto.
Qed.

(** X2: [availableYears] lists each year of the selected county's
    documents, once, newest (greatest) first. *)
Theorem availableYears_sorted_unique (documents : list Selector.Document) (county : string) :
  let l := Selector.availableYears documents county in
  Sorted (fun a b => String.leb b a = true) l /\ NoDup l /\
  forall y, In y l <-> exists d, In d documents /\ Selector.doc_county d = county
                                 /\ Selector.doc_year d = y.
Proof.
  intros l. unfold l, Selector.availableYears, Selector.array_from_set.
  split; [apply (SelectorFacts.sorted_rev SelectorFacts.sle), SelectorFacts.sort_str_sorted|].
  split.
  - apply NoDup_rev.
    eapply Permutation_NoDup; [symmetry; apply SelectorFacts.sort_str_perm|].
    apply SelectorFacts.set_from_nodup.
  - intros y. rewrite <- in_rev. split.
    + intros H. eapply Permutation_in in H; [|apply SelectorFacts.sort_str_perm].
      apply SelectorFacts.set_from_in in H as [H _]. apply in_map_iff in H as [d [Hd Hin]].
      apply filter_In in Hin as [Hin Hc]. apply String.eqb_eq in Hc. eauto.
    + intros [d [Hin [Hc Hy]]].
      eapply Permutation_in; [symmetry; apply SelectorFacts.sort_str_perm|].
      apply SelectorFacts.set_from_in. split; [|simpl; tauto].
      apply in_map_iff. exists d. split; [exact Hy|].
      apply filter_In. split; [exact Hin|]. now apply String.eqb_eq.
Qed.

(** X3: an empty county search shows every available county, provided
    lower-casing maps the empty string to itself. *)
Theorem filteredCounties_empty_search (to_lower : string -> string)
    (documents : list Selector.Document) :
  to_lower "" = "" ->
  Selector.filteredCounties to_lower documents "" = Selector.availableCounties documents.
Proof.
  intros H. unfold Selector.filteredCounties. rewrite H.
  apply forallb_filter_id. apply forallb_forall. intros c _.
  destruct (to_lower c); reflexivity.
Qed.

(** X4: the document selected by county and year has its year among the
    year options of its county and its county among the county options. *)
Theorem currentDoc_in_options (documents : list Selector.Document) (county year : string)
    (d : Selector.Document) :
  Selector.currentDoc documents county year = Some d ->
  In year (Selector.availableYears documents county) /\
  In county (Selector.availableCounties documents).
Proof.
  intros H. apply find_some in H as [Hin Hm].
  apply andb_true_iff in Hm as [Hc Hy].
  apply String.eqb_eq in Hc, Hy.
  split.
  - apply (availableYears_sorted_unique documents county). eauto.
  - apply (availableCounties_sorted_unique documents). eauto.
Qed.

(** ** [handleGPUResults] *)

Module JsonFacts.
Import Json.

Lemma lookup_app k (l1 l2 : list (string * t)) :
  lookup k (l1 ++ l2)%list = match lookup k l2 with Some w => Some w | None => lookup k l1 end.
Proof.
  induction l1 as [|[k' v] l1 IH]; simpl.
  - destruct (lookup k l2); reflexivity.
  - rewrite IH. destruct (lookup k l2); reflexivity.
Qed.

Lemma lookup_replace k k' v fs :
  lookup k (map (fun kv => if String.eqb (fst kv) k' then (k', v) else kv) fs) =
  if String.eqb k' k
  then (if existsb (fun kv => String.eqb (fst kv) k') fs then Some v else None)
  else lookup k fs.
Proof.
  induction fs as [|[k0 v0] fs IH]; simpl.
  - destruct (String.eqb k' k); reflexivity.
  - destruct (String.eqb_spec k0 k') as [->|Hn0]; simpl; rewrite IH;
      destruct (String.eqb_spec k' k) as [<-|Hne]; simpl;
      destruct (existsb (fun kv => String.eqb (fst kv) k') fs); simpl;
      rewrite ?String.eqb_refl; try reflexivity.
    destruct (String.eqb_spec k0 k'); congruence.
Qed.

Lemma lookup_set k k' v fs :
  lookup k (set fs k' v) = if String.eqb k' k then Some v else lookup k fs.
Proof.
  unfold set. destruct (existsb (fun kv => String.eqb (fst kv) k') fs) eqn:E.
  - rewrite lookup_replace, E. destruct (String.eqb k' k); reflexivity.
  - rewrite lookup_app. simpl. destruct (String.eqb k' k); reflexivity.
Qed.

Lemma lookup_spread k acc x :
  lookup k (spread acc x) =
  match lookup k (own_entries x) with Some v => Some v | None => lookup k acc end.
Proof.
  unfold spread. generalize (own_entries x) as es. intros es. revert acc.
  induction es as [|[k' v] es IH]; intros acc; simpl; [reflexivity|].
  rewrite IH, lookup_set. destruct (lookup k es); [reflexivity|].
  destruct (String.eqb k' k); reflexivity.
Qed.

Lemma get_set fs k v k' :
  get (JObj (set fs k v)) k' = if String.eqb k k' then v else get (JObj fs) k'.
Proof.
  unfold get at 1. rewrite lookup_set. destruct (String.eqb k k'); reflexivity.
Qed.

Lemma or_falsy a b : truthy a = false -> or a b = b.
Proof. intros H. unfold or. now rewrite H. Qed.

(** Decide the comparisons of literal keys. *)
Ltac eval_keys :=
  repeat match goal with
         | |- context [String.eqb ?a ?b] =>
             let e := eval vm_compute in (String.eqb a b) in
             change (String.eqb a b) with e; cbv iota
         end.

End JsonFacts.

(** X5: when the interpreted result carries no [key_metrics], the metrics
    [handleGPUResults] keeps are the merge of the extraction's [revenue],
    [expenditure], [debt] and [health_fif] objects and [data.key_metrics],
    a later one overriding an earlier one key by key. *)
Theorem handleGPUResults_key_metrics_merge (data : Json.t) (county k : string) :
  Json.truthy data = true ->
  Json.truthy (Json.get (Json.or (Json.get data "interpreted_data") data) "key_metrics") = false ->
  exists r fs,
    GPUResults.handleGPUResults data county = Some r /\
    Json.get r "key_metrics" = Json.JObj fs /\
    Json.lookup k fs =
      GPUResults.first_lookup k
        (map GPUResults.or_empty
          [Json.get data "key_metrics";
           Json.get (Json.get data "extraction") "health_fif";
           Json.get (Json.get data "extraction") "debt";
           Json.get (Json.get data "extraction") "expenditure";
           Json.get (Json.get data "extraction") "revenue"]).
Proof.
  intros Hd Hk. unfold GPUResults.handleGPUResults. rewrite Hd. simpl negb. cbv iota.
  eexists; eexists; split; [reflexivity|]. split.
  - unfold Json.get at 1. rewrite !JsonFacts.lookup_set. simpl.
    unfold Json.or at 1. rewrite Hk. reflexivity.
  - rewrite !JsonFacts.lookup_spread. simpl.
    repeat match goal with
           | |- context [match ?e with Some _ => _ | None => _ end] =>
               is_var e || destruct e; try reflexivity
           end.
Qed.

(** X6: when neither the interpreted result nor [data] carries an
    [intelligence] object, [handleGPUResults] builds one whose
    [transparency_risk_score] is the risk assessment's [score], or [0]
    when that is missing or falsy, and whose [flags] default to [[]]. *)
Theorem handleGPUResults_risk_default (data : Json.t) (county : string) :
  Json.truthy data = true ->
  Json.truthy (Json.get (Json.or (Json.get data "interpreted_data") data) "intelligence") = false ->
  Json.truthy (Json.get data "intelligence") = false ->
  let risk := Json.get (Json.get data "analysis") "risk_assessment" in
  exists r,
    GPUResults.handleGPUResults data county = Some r /\
    Json.get (Json.get r "intelligence") "transparency_risk_score"
      = Json.or (Json.get risk "score") (Json.JNum 0) /\
    Json.get (Json.get r "intelligence") "flags" = Json.or (Json.get risk "flags") (Json.JArr []).
Proof.
  intros Hd Hi Hdi risk. unfold GPUResults.handleGPUResults. rewrite Hd. simpl negb. cbv iota.
  eexists; split; [reflexivity|].
  rewrite !JsonFacts.get_set. JsonFacts.eval_keys.
  rewrite (JsonFacts.or_falsy _ _ Hi), (JsonFacts.or_falsy _ _ Hdi).
  unfold Json.or at 1. simpl Json.truthy. cbv iota.
  rewrite !JsonFacts.get_set. JsonFacts.eval_keys. split; reflexivity.
Qed.

Module ReportFacts.
Import Json Report.

Definition extends (d d' : Doc) : Prop := exists suf, ops d' = (ops d ++ suf)%list.

Lemma extends_refl d : extends d d.
Proof. exists []. now rewrite app_nil_r. Qed.

Lemma extends_trans d1 d2 d3 : extends d1 d2 -> extends d2 d3 -> extends d1 d3.
Proof.
  intros [s1 E1] [s2 E2]. exists (s1 ++ s2)%list. now rewrite E2, E1, app_assoc.
Qed.

Lemma extends_metrics nts ntl up w es i n y d :
  extends d (snd (draw_metrics nts ntl up w es i n y d)).
Proof.
  revert i y d. induction es as [|[key value] es IH]; intros i y d; simpl.
  - apply extends_refl.
  - set (y1 := if _ || _ then _ else _).
    destruct (Z.ltb 270 y1); (eapply extends_trans; [|apply IH]);
      unfold addPage, text, emit; eexists; simpl; rewrite <- app_assoc; reflexivity.
Qed.

Lemma extends_lines lines y d : extends d (snd (draw_lines lines y d)).
Proof.
  revert y d. induction lines as [|l lines IH]; intros y d; simpl.
  - apply extends_refl.
  - destruct (Z.ltb 280 y); (eapply extends_trans; [|apply IH]);
      unfold addPage, text, emit; eexists; simpl; reflexivity.
Qed.

Lemma draw_footers_ops date i k total d :
  ops (draw_footers date i k total d)
  = (ops d ++ map (fun j => OpText j (footer date j total) margin 290) (seq i k))%list
  /\ pages (draw_footers date i k total d) = pages d.
Proof.
  revert i d. induction k as [|k IH]; intros i d; simpl.
  - now rewrite app_nil_r.
  - destruct (IH (S i) (text (setPage d i) (footer date i total) margin 290)) as [E1 E2].
    rewrite E1, E2. unfold text, emit, setPage. simpl. now rewrite <- app_assoc.
Qed.

(** Every text of the body lies on an existing page, between y = 20 and
    y = 280. *)
Definition body_ok (d : Doc) : Prop :=
  (1 <= cur d <= pages d)%nat /\
  forall p s x y, In (OpText p s x y) (ops d) -> (1 <= p <= pages d)%nat /\ (20 <= y <= 280)%Z.

Lemma body_ok_text d s x y : body_ok d -> (20 <= y <= 280)%Z -> body_ok (text d s x y).
Proof.
  intros [Hc Ho] Hy. split; [exact Hc|]. intros p s' x' y' Hin.
  unfold text, emit in Hin; simpl in Hin. apply in_app_or in Hin as [Hin|[Heq|[]]].
  - now apply (Ho p s' x' y').
  - injection Heq as <- <- <- <-. split; [exact Hc | exact Hy].
Qed.

Lemma body_ok_emit d op :
  body_ok d -> match op with OpText _ _ _ _ => False | _ => True end -> body_ok (emit d op).
Proof.
  intros [Hc Ho] Hop. split; [exact Hc|]. intros p s x y Hin.
  unfold emit in Hin; simpl in Hin. apply in_app_or in Hin as [Hin|[Heq|[]]];
    [now apply (Ho p s x y) | subst op; contradiction].
Qed.

Lemma body_ok_addPage d : body_ok d -> body_ok (addPage d).
Proof.
  intros [Hc Ho]. unfold addPage. split; simpl; [lia|].
  intros p s x y Hin. destruct (Ho p s x y Hin). split; [lia | assumption].
Qed.

Lemma body_ok_metrics nts ntl up w es i n y d :
  body_ok d -> (20 <= y <= 270)%Z ->
  body_ok (snd (draw_metrics nts ntl up w es i n y d)) /\
  (20 <= fst (draw_metrics nts ntl up w es i n y d) <= 270)%Z.
Proof.
  revert i y d. induction es as [|[key value] es IH]; intros i y d Hd Hy; simpl.
  - split; assumption.
  - set (y1 := if _ || _ then _ else _).
    assert (Hd1 : body_ok (text (text d (up (underscores_to_spaces key))
                    (margin + inject_Z (Z.of_nat (Nat.modulo i 2)) * (w - 2 * margin) / 2) y)
                    (formatValue nts ntl key value)
                    (margin + inject_Z (Z.of_nat (Nat.modulo i 2)) * (w - 2 * margin) / 2)
                    (y + 5))).
    { apply body_ok_text; [apply body_ok_text|]; [assumption | lia | lia]. }
    assert (Hy1 : (20 <= y1)%Z) by (unfold y1; destruct (_ || _); lia).
    destruct (Z.ltb 270 y1) eqn:E.
    + apply IH; [now apply body_ok_addPage | lia].
    + apply IH; [exact Hd1 | apply Z.ltb_ge in E; lia].
Qed.

Lemma body_ok_lines lines y d :
  body_ok d -> (20 <= y)%Z -> body_ok (snd (draw_lines lines y d)).
Proof.
  revert y d. induction lines as [|l lines IH]; intros y d Hd Hy; simpl; [exact Hd|].
  destruct (Z.ltb 280 y) eqn:E.
  - apply IH; [|lia]. apply body_ok_text; [now apply body_ok_addPage | lia].
  - apply Z.ltb_ge in E. apply IH; [|lia]. apply body_ok_text; [exact Hd | lia].
Qed.

Lemma texts_lines lines y d :
  texts (snd (draw_lines lines y d)) = (texts d ++ lines)%list.
Proof.
  revert y d. induction lines as [|l lines IH]; intros y d; simpl.
  - now rewrite app_nil_r.
  - destruct (Z.ltb 280 y); rewrite IH; unfold text, emit, texts; simpl;
      rewrite flat_map_app; simpl; now rewrite <- app_assoc.
Qed.

Lemma strip_marks_clean s c :
  In c (list_ascii_of_string (strip_marks s)) -> c <> "#"%char /\ c <> "*"%char.
Proof.
  induction s as [|a s IH]; simpl; [tauto|].
  destruct (Ascii.eqb a "#"%char) eqn:E1; simpl; [now apply IH|].
  destruct (Ascii.eqb a "*"%char) eqn:E2; simpl; [now apply IH|].
  intros [<-|H]; [|now apply IH].
  split; intros ->; discriminate.
Qed.

Lemma texts_footers date i k total d :
  texts (draw_footers date i k total d)
  = (texts d ++ map (fun j => footer date j total) (seq i k))%list.
Proof.
  destruct (draw_footers_ops date i k total d) as [E _].
  unfold texts at 1. rewrite E, flat_map_app. f_equal.
  clear E. revert i. induction k as [|k IH]; intros j; simpl; [reflexivity|]. now rewrite IH.
Qed.

Lemma texts_text d s x y : texts (text d s x y) = (texts d ++ [s])%list.
Proof. unfold texts, text, emit. simpl. rewrite flat_map_app. reflexivity. Qed.

End ReportFacts.

(** X7: in a saved integrity report every page ends with exactly one
    footer, drawn last at y = 290 and reading "Page i of N" for its page
    [i] of [N]; every other text lies on an existing page between y = 20
    and y = 280. *)
Theorem generateIntegrityReport_layout num_to_string num_to_locale to_upper pageWidth
    splitTextToSize date_string (result : Json.t) (d : Report.Doc) (filename : string) :
  Report.generateIntegrityReport num_to_string num_to_locale to_upper pageWidth
    splitTextToSize date_string result = Report.Saved d filename ->
  exists body,
    Report.ops d =
      (body ++ map (fun i => Report.OpText i (Report.footer date_string i (Report.pages d))
                               Report.margin 290)
                   (seq 1 (Report.pages d)))%list /\
    forall p s x y, In (Report.OpText p s x y) body ->
      (1 <= p <= Report.pages d)%nat /\ (20 <= y <= 280)%Z.
Proof.
  unfold Report.generateIntegrityReport. intros H.
  destruct (negb (Json.truthy result)); [discriminate|].
  destruct (Json.get result "county"); try discriminate.
  destruct (Report.method_label to_upper (Json.get result "method")); try discriminate.
  set (dh := Report.text (Report.text (Report.text (Report.emit Report.new_doc (Report.OpRect 1))
               "BUDGET INTEGRITY REPORT" Report.margin 25) _ Report.margin 35) _ Report.margin 40) in H.
  assert (Hh : ReportFacts.body_ok dh).
  { unfold dh. repeat (apply ReportFacts.body_ok_text; [|lia]).
    apply ReportFacts.body_ok_emit; [|exact I].
    split; [simpl; lia | intros ? ? ? ? []]. }
  destruct (Json.get (Json.get result "intelligence") "transparency_risk_score");
    simpl in H;
    match type of H with
    | context [Report.draw_metrics ?a ?b ?c ?e ?es ?i ?n ?y ?dd] =>
        assert (Hm : ReportFacts.body_ok (snd (Report.draw_metrics a b c e es i n y dd)) /\
                     (20 <= fst (Report.draw_metrics a b c e es i n y dd) <= 270)%Z)
          by (apply ReportFacts.body_ok_metrics;
              [repeat first [ exact Hh | apply ReportFacts.body_ok_text
                            | apply ReportFacts.body_ok_emit | exact I | lia ] | lia ]);
        destruct (Report.draw_metrics a b c e es i n y dd) as [y1 d1] eqn:Em
    end;
    rewrite ?Em in Hm; destruct Hm as [Hm1 Hm2]; simpl in Hm1, Hm2;
    (destruct (Json.or (Json.get result "summary_text") (Json.JStr "")); try discriminate);
    match type of H with
    | context [Report.draw_lines ?ls ?y ?dd] =>
        assert (Hl := ReportFacts.body_ok_lines ls y dd);
        destruct (Report.draw_lines ls y dd) as [y2 d2] eqn:El
    end;
    simpl in Hl;
    (injection H as <- _;
     destruct (ReportFacts.draw_footers_ops date_string 1 (Report.pages d2) (Report.pages d2) d2)
       as [E1 E2];
     rewrite E2, E1; exists (Report.ops d2); split; [reflexivity|];
     apply Hl; [apply ReportFacts.body_ok_text; [exact Hm1 | lia] | lia]).
Qed.

(** X8: a saved integrity report ends with the summary heading, then the
    lines [splitTextToSize] makes of [summary_text] in their order, then
    the page footers; the text handed to [splitTextToSize] has no [#] and
    no [*]. *)
Theorem generateIntegrityReport_summary_lines num_to_string num_to_locale to_upper pageWidth
    splitTextToSize date_string (result : Json.t) (d : Report.Doc) (filename s : string) :
  Report.generateIntegrityReport num_to_string num_to_locale to_upper pageWidth
    splitTextToSize date_string result = Report.Saved d filename ->
  Json.get result "summary_text" = Json.JStr s ->
  (exists pre,
    Report.texts d =
      (pre ++ "SENIOR AUDITOR EXECUTIVE SUMMARY"
           :: splitTextToSize (Report.strip_marks s) (pageWidth - 2 * Report.margin)
           ++ map (fun i => Report.footer date_string i (Report.pages d))
                  (seq 1 (Report.pages d)))%list) /\
  forall c, In c (list_ascii_of_string (Report.strip_marks s)) -> c <> "#"%char /\ c <> "*"%char.
Proof.
  intros H Hs. split; [|apply ReportFacts.strip_marks_clean].
  assert (Hor : Json.or (Json.JStr s) (Json.JStr "") = Json.JStr s).
  { unfold Json.or. simpl. destruct (String.eqb_spec s "") as [->|]; reflexivity. }
  unfold Report.generateIntegrityReport in H. rewrite Hs, Hor in H.
  destruct (negb (Json.truthy result)); [discriminate|].
  destruct (Json.get result "county"); try discriminate.
  destruct (Report.method_label to_upper (Json.get result "method")); try discriminate.
  destruct (Json.get (Json.get result "intelligence") "transparency_risk_score");
    simpl in H;
    match type of H with
    | context [Report.draw_metrics ?a ?b ?c ?e ?es ?i ?n ?y ?dd] =>
        destruct (Report.draw_metrics a b c e es i n y dd) as [y1 d1]
    end;
    match type of H with
    | context [Report.draw_lines ?ls ?y ?dd] =>
        assert (Hl := ReportFacts.texts_lines ls y dd);
        destruct (Report.draw_lines ls y dd) as [y2 d2]
    end;
    simpl in Hl;
    (injection H as <- _;
     rewrite ReportFacts.texts_footers, Hl, ReportFacts.texts_text;
     destruct (ReportFacts.draw_footers_ops date_string 1 (Report.pages d2) (Report.pages d2) d2)
       as [_ E2]; rewrite E2;
     exists (Report.texts d1); rewrite <- !app_assoc; reflexivity).
Qed.

(** X9: when an analysis reaches [handleGPUResults] without an
    [intelligence] object and its risk assessment has no (truthy) score,
    the integrity report printed from the stored result shows
    "Score: 0/100" on its first page, as if the score had been 0. *)
Theorem report_of_unscored_analysis_shows_zero num_to_string num_to_locale to_upper pageWidth
    splitTextToSize date_string (data : Json.t) (county : string) (r : Json.t)
    (d : Report.Doc) (filename : string) :
  Json.truthy (Json.get (Json.or (Json.get data "interpreted_data") data) "intelligence") = false ->
  Json.truthy (Json.get data "intelligence") = false ->
  Json.truthy (Json.get (Json.get (Json.get data "analysis") "risk_assessment") "score") = false ->
  GPUResults.handleGPUResults data county = Some r ->
  Report.generateIntegrityReport num_to_string num_to_locale to_upper pageWidth
    splitTextToSize date_string r = Report.Saved d filename ->
  In (Report.OpText 1 ("Score: " ++ num_to_string 0 ++ "/100") Report.margin 78) (Report.ops d).
Proof.
  intros Hi Hdi Hsc Hr H.
  assert (Hd : Json.truthy data = true).
  { destruct (Json.truthy data) eqn:E; [reflexivity|].
    unfold GPUResults.handleGPUResults in Hr. rewrite E in Hr. discriminate. }
  destruct (handleGPUResults_risk_default data county Hd Hi Hdi) as [r' [Hr' [Hscore _]]].
  rewrite Hr in Hr'. injection Hr' as <-.
  rewrite (JsonFacts.or_falsy _ _ Hsc) in Hscore.
  unfold Report.generateIntegrityReport in H. rewrite Hscore in H.
  destruct (negb (Json.truthy r)); [discriminate|].
  destruct (Json.get r "county"); try discriminate.
  destruct (Report.method_label to_upper (Json.get r "method")); try discriminate.
  simpl in H.
  match type of H with
  | context [Report.draw_metrics ?a ?b ?c ?e ?es ?i ?n ?y ?dd] =>
      assert (Em := ReportFacts.extends_metrics a b c e es i n y dd);
      destruct (Report.draw_metrics a b c e es i n y dd) as [y1 d1]
  end.
  destruct (Json.or (Json.get r "summary_text") (Json.JStr "")); try discriminate.
  match type of H with
  | context [Report.draw_lines ?ls ?y ?dd] =>
      assert (El := ReportFacts.extends_lines ls y dd);
      destruct (Report.draw_lines ls y dd) as [y2 d2]
  end.
  simpl in Em, El. injection H as <- _.
  rewrite (proj1 (ReportFacts.draw_footers_ops date_string 1 (Report.pages d2) (Report.pages d2) d2)).
  apply in_or_app. left.
  destruct El as [suf2 E2]. rewrite E2. apply in_or_app. left.
  simpl. apply in_or_app. left.
  destruct Em as [suf1 E1]. rewrite E1. apply in_or_app. left.
  unfold Report.text, Report.emit. simpl.
  repeat first [left; reflexivity | right].
Qed.

(** ** OpenCounty proxy *)

(** X10: with non-empty [county], [year] and [category] the handler issues
    exactly one request, to the OpenCounty URL built from them, and an
    upstream failure status is passed through with the message "Failed to
    fetch from OpenCounty API". *)
Theorem fetchCountyData_single_request (fetch : string -> FetchCountyData.FetchReply)
    (query : list (string * string)) (c y cat : string) :
  FetchCountyData.search_get query "county" = Some c -> c <> "" ->
  FetchCountyData.search_get query "year" = Some y -> y <> "" ->
  FetchCountyData.search_get query "category" = Some cat -> cat <> "" ->
  snd (FetchCountyData.GET fetch query) = [FetchCountyData.api_url c y cat] /\
  forall status json,
    fetch (FetchCountyData.api_url c y cat) = FetchCountyData.FetchResp false status json ->
    fst (FetchCountyData.GET fetch query)
    = mkResponse status (BodyError "Failed to fetch from OpenCounty API").
Proof.
  intros Hc Hc' Hy Hy' Hk Hk'. unfold FetchCountyData.GET. rewrite Hc, Hy, Hk.
  assert (Ht : forall s, s <> "" -> FetchCountyData.truthy (Some s) = true)
    by (intros [|a s] H; [congruence | reflexivity]).
  rewrite !Ht by assumption. simpl. split.
  - destruct (fetch (FetchCountyData.api_url c y cat)) as [m|[] st [v|m]]; reflexivity.
  - intros st j E. rewrite E. reflexivity.
Qed.

(** X11: the two copies of the proxy, [app/api/FetchCountyData/route.ts]
    and [app/api/fetchCountyData.ts], issue the same requests and answer
    with the same status and the same error message on every query; they
    differ only in wrapping the upstream data ([{ success: true, data }]
    against [{ data }]). *)
Theorem fetchCountyData_copies_agree (fetch : string -> FetchCountyData.FetchReply)
    (query : list (string * string)) :
  let '(r1, urls1) := FetchCountyData.GET fetch query in
  let '((st2, b2), urls2) := FetchCountyDataTs.GET fetch query in
  urls1 = urls2 /\ resp_status r1 = st2 /\
  match resp_body r1, b2 with
  | BodyError m1, FetchCountyDataTs.Error m2 => m1 = m2
  | BodySuccess v1, FetchCountyDataTs.Data v2 => v1 = v2
  | _, _ => False
  end.
Proof.
  unfold FetchCountyData.GET, FetchCountyDataTs.GET.
  destruct (negb (FetchCountyData.truthy (FetchCountyData.search_get query "county"))
            || negb (FetchCountyData.truthy (FetchCountyData.search_get query "year"))
            || negb (FetchCountyData.truthy (FetchCountyData.search_get query "category")));
    [simpl; auto|].
  unfold FetchCountyData.api_url.
  match goal with |- context [fetch ?u] => destruct (fetch u) as [m|[] st [v|m]] end;
    simpl; auto.
Qed.

(** ** Gemini analysis, reports, uploads *)

Module RouteFacts.
Import GeminiAnalyze.

(** A POST leaves the ids and file lists of [uploads] as they are. *)
Lemma post_upload_keys python b db :
  map (fun u => (up_id u, up_filenames u)) (uploads (snd (POST python b db)))
  = map (fun u => (up_id u, up_filenames u)) (uploads db).
Proof.
  unfold POST. destruct (python b) as [st det | km summ res]; [reflexivity|].
  unfold bind, select_upload, select_analysis. simpl.
  destruct (option_map up_id _) as [u|];
    destruct (option_map ar_id _) as [rid|]; simpl; try reflexivity;
    rewrite map_map; apply map_ext; intros x; destruct (Z.eqb (up_id x) u); reflexivity.
Qed.

Lemma select_upload_keys (db1 db2 : DB) pdf :
  map (fun u => (up_id u, up_filenames u)) (uploads db1)
  = map (fun u => (up_id u, up_filenames u)) (uploads db2) ->
  fst (select_upload pdf db1) = fst (select_upload pdf db2).
Proof.
  unfold select_upload. simpl. generalize (uploads db2) as l2.
  induction (uploads db1) as [|u1 l1 IH]; intros [|u2 l2] E; simpl in *; try discriminate.
  - reflexivity.
  - injection E as E1 E2 E3. rewrite E2.
    destruct (existsb (String.eqb pdf) (up_filenames u2)); simpl; [congruence|].
    now apply IH.
Qed.

(** [POST] iterated [n] times on the same body. *)
Fixpoint repeat_post (n : nat) (python : Body -> PyReply) (b : Body) (db : DB) : DB :=
  match n with
  | O => db
  | S n => repeat_post n python b (snd (POST python b db))
  end.


Lemma find_app {A} (f : A -> bool) (l1 l2 : list A) :
  find f (l1 ++ l2)%list = match find f l1 with Some x => Some x | None => find f l2 end.
Proof.
  induction l1 as [|x l1 IH]; simpl; [reflexivity|]. destruct (f x); [reflexivity | exact IH].
Qed.

Lemma repeat_post_unique n python b db u :
  fst (select_upload (pdfId b) db) = Some u ->
  (rows_for (Some u) (county b) db <= 1)%nat ->
  (rows_for (Some u) (county b) (repeat_post n python b db) <= 1)%nat.
Proof.
  revert db. induction n as [|n IH]; intros db Hu Hle; simpl; [exact Hle|].
  apply IH.
  - rewrite (select_upload_keys _ db (pdfId b) (post_upload_keys python b db)). exact Hu.
  - now apply GeminiFacts.post_found_upload_keeps_unique.
Qed.

End RouteFacts.

(** X12: when the Python service answers with an error, the Gemini route
    answers with that status and writes nothing to the database. *)
Theorem gemini_python_error_no_write (python : GeminiAnalyze.Body -> GeminiAnalyze.PyReply)
    (b : GeminiAnalyze.Body) (db : GeminiAnalyze.DB) status detail :
  python b = GeminiAnalyze.PyNotOk status detail ->
  snd (GeminiAnalyze.POST python b db) = db /\
  resp_status (fst (GeminiAnalyze.POST python b db)) = status.
Proof. intros H. unfold GeminiAnalyze.POST. rewrite H. split; reflexivity. Qed.




(** X16: the upload route answers 400 "Missing county, year, or files", with
    no file written and no row inserted, exactly when the county or the
    year is missing or empty or no file is sent. *)
Theorem upload_missing_fields (county year : option string) (files : list Tables.FormFile)
    (db : Tables.TDB) :
  Tables.upload_POST county year files db = (Tables.UploadMissing, [], db) <->
  FetchCountyData.truthy county = false \/ FetchCountyData.truthy year = false \/ files = [].
Proof.
  unfold Tables.upload_POST.
  destruct county as [[|a c]|]; destruct year as [[|a' y]|]; destruct files as [|f fs];
    simpl; split; intros H; try discriminate; auto;
    destruct H as [H|[H|H]]; discriminate.
Qed.

(** X17: once a PDF has been uploaded, Gemini analyses of it find its
    upload, and any number of repeated analyses for the same county keep at
    most one analysis row for that upload and county. *)
Theorem uploaded_pdf_keeps_one_analysis (c y : string) (files : list Tables.FormFile)
    (tdb tdb' : Tables.TDB) (names : list string) (fx : list Tables.FsEffect)
    (gdb : GeminiAnalyze.DB) (python : GeminiAnalyze.Body -> GeminiAnalyze.PyReply)
    (b : GeminiAnalyze.Body) (n : nat) :
  Tables.upload_POST (Some c) (Some y) files tdb = (Tables.Uploaded names, fx, tdb') ->
  In (GeminiAnalyze.pdfId b) names ->
  GeminiAnalyze.uploads gdb = map Tables.gemini_upload (Tables.t_uploads tdb') ->
  exists u,
    fst (GeminiAnalyze.select_upload (GeminiAnalyze.pdfId b) gdb) = Some u /\
    (GeminiAnalyze.rows_for (Some u) (GeminiAnalyze.county b) gdb <= 1 ->
     GeminiAnalyze.rows_for (Some u) (GeminiAnalyze.county b)
       (RouteFacts.repeat_post n python b gdb) <= 1)%nat.
Proof.
  intros Hup Hf Hg. unfold Tables.upload_POST in Hup.
  destruct files as [|f0 fs]; [discriminate|].
  destruct (String.eqb c "" || String.eqb y ""); [discriminate|].
  injection Hup as Hn _ <-. subst names.
  unfold GeminiAnalyze.select_upload. simpl. rewrite Hg. simpl.
  destruct (find _ _) as [v|] eqn:E.
  - exists (GeminiAnalyze.up_id v). split; [reflexivity|].
    apply RouteFacts.repeat_post_unique.
    unfold GeminiAnalyze.select_upload. simpl. rewrite Hg. simpl. now rewrite E.
  - exfalso. revert E. rewrite map_app, RouteFacts.find_app.
    destruct (find _ (map Tables.gemini_upload (Tables.t_uploads tdb))); [discriminate|].
    assert (Hx : existsb (String.eqb (GeminiAnalyze.pdfId b))
                          (Tables.file_name f0 :: map Tables.file_name fs) = true).
    { apply existsb_exists. exists (GeminiAnalyze.pdfId b). split; [exact Hf | apply String.eqb_refl]. }
    cbn [map find Tables.gemini_upload GeminiAnalyze.up_filenames Tables.u_filenames].
    rewrite Hx. discriminate.
Qed.

(** ** Analyze route of [app/api/dashboard/stats/route.ts] *)



(** ** Witnesses *)

Lemma filteredCounties_empty_search_witness :
  Selector.filteredCounties lower Samples.documents "" = Selector.availableCounties Samples.documents.
Proof. apply filteredCounties_empty_search. reflexivity. Defined.

Lemma currentDoc_in_options_witness :
  In "2025" (Selector.availableYears Samples.documents "Mombasa") /\
  In "Mombasa" (Selector.availableCounties Samples.documents).
Proof.
  apply (currentDoc_in_options Samples.documents "Mombasa" "2025"
           (Selector.mkDocument "Mombasa" "2025" Json.JNull)).
  vm_compute. reflexivity.
Defined.

Lemma handleGPUResults_key_metrics_merge_witness :
  exists r fs,
    GPUResults.handleGPUResults Samples.gpu_reply "Mombasa" = Some r /\
    Json.get r "key_metrics" = Json.JObj fs /\
    Json.lookup "own_source_revenue" fs =
      GPUResults.first_lookup "own_source_revenue"
        (map GPUResults.or_empty
          [Json.get Samples.gpu_reply "key_metrics";
           Json.get (Json.get Samples.gpu_reply "extraction") "health_fif";
           Json.get (Json.get Samples.gpu_reply "extraction") "debt";
           Json.get (Json.get Samples.gpu_reply "extraction") "expenditure";
           Json.get (Json.get Samples.gpu_reply "extraction") "revenue"]).
Proof. apply handleGPUResults_key_metrics_merge; vm_compute; reflexivity. Defined.

Lemma handleGPUResults_risk_default_witness :
  let risk := Json.get (Json.get Samples.gpu_reply "analysis") "risk_assessment" in
  exists r,
    GPUResults.handleGPUResults Samples.gpu_reply "Mombasa" = Some r /\
    Json.get (Json.get r "intelligence") "transparency_risk_score"
      = Json.or (Json.get risk "score") (Json.JNum 0) /\
    Json.get (Json.get r "intelligence") "flags" = Json.or (Json.get risk "flags") (Json.JArr []).
Proof. apply handleGPUResults_risk_default; vm_compute; reflexivity. Defined.

Lemma generateIntegrityReport_layout_witness :
  exists body,
    Report.ops Samples.report_doc =
      (body ++ map (fun i => Report.OpText i (Report.footer "19/10/2026" i
                                               (Report.pages Samples.report_doc))
                               Report.margin 290)
                   (seq 1 (Report.pages Samples.report_doc)))%list /\
    forall p s x y, In (Report.OpText p s x y) body ->
      (1 <= p <= Report.pages Samples.report_doc)%nat /\ (20 <= y <= 280)%Z.
Proof.
  apply (generateIntegrityReport_layout Samples.print_number Samples.print_number (fun s => s) 210
           (fun s _ => [s]) "19/10/2026" Samples.gpu_result Samples.report_doc Samples.report_file).
  vm_compute. reflexivity.
Defined.

Lemma generateIntegrityReport_summary_lines_witness :
  (exists pre,
    Report.texts Samples.report_doc =
      (pre ++ "SENIOR AUDITOR EXECUTIVE SUMMARY"
           :: [Report.strip_marks "## Summary: **revenue** fell"]
           ++ map (fun i => Report.footer "19/10/2026" i (Report.pages Samples.report_doc))
                  (seq 1 (Report.pages Samples.report_doc)))%list) /\
  forall c, In c (list_ascii_of_string (Report.strip_marks "## Summary: **revenue** fell")) ->
    c <> "#"%char /\ c <> "*"%char.
Proof.
  apply (generateIntegrityReport_summary_lines Samples.print_number Samples.print_number
           (fun s => s) 210 (fun s _ => [s]) "19/10/2026" Samples.gpu_result Samples.report_doc
           Samples.report_file "## Summary: **revenue** fell");
    vm_compute; reflexivity.
Defined.

Lemma report_of_unscored_analysis_shows_zero_witness :
  In (Report.OpText 1 ("Score: " ++ Samples.print_number 0 ++ "/100") Report.margin 78)
     (Report.ops Samples.report_doc).
Proof.
  apply (report_of_unscored_analysis_shows_zero Samples.print_number Samples.print_number
           (fun s => s) 210 (fun s _ => [s]) "19/10/2026" Samples.gpu_reply "Mombasa"
           Samples.gpu_result Samples.report_doc Samples.report_file);
    vm_compute; reflexivity.
Defined.

Lemma fetchCountyData_single_request_witness :
  snd (FetchCountyData.GET Samples.opencounty Samples.county_query)
    = [FetchCountyData.api_url "Mombasa" "2025" "revenue"] /\
  forall status json,
    Samples.opencounty (FetchCountyData.api_url "Mombasa" "2025" "revenue")
      = FetchCountyData.FetchResp false status json ->
    fst (FetchCountyData.GET Samples.opencounty Samples.county_query)
    = mkResponse status (BodyError "Failed to fetch from OpenCounty API").
Proof.
  apply fetchCountyData_single_request;
    first [reflexivity | discriminate].
Defined.

Lemma gemini_python_error_no_write_witness :
  snd (GeminiAnalyze.POST Samples.python_down Samples.request Samples.gemini_db) = Samples.gemini_db /\
  resp_status (fst (GeminiAnalyze.POST Samples.python_down Samples.request Samples.gemini_db)) = 503%Z.
Proof. apply (gemini_python_error_no_write _ _ _ 503 None). reflexivity. Defined.



Lemma uploaded_pdf_keeps_one_analysis_witness :
  exists u,
    fst (GeminiAnalyze.select_upload (GeminiAnalyze.pdfId Samples.request) Samples.gemini_db) = Some u /\
    (GeminiAnalyze.rows_for (Some u) (GeminiAnalyze.county Samples.request) Samples.gemini_db <= 1 ->
     GeminiAnalyze.rows_for (Some u) (GeminiAnalyze.county Samples.request)
       (RouteFacts.repeat_post 3 Samples.python_ok Samples.request Samples.gemini_db) <= 1)%nat.
Proof.
  apply (uploaded_pdf_keeps_one_analysis "Mombasa" "2025" [Samples.pdf_file] Samples.empty_tables
           (snd Samples.uploaded) ["CGBIRR August 2025.pdf"] (snd (fst Samples.uploaded)));
    vm_compute; first [reflexivity | left; reflexivity].
Defined.


